(** * Retry strategy of the CHYing agent: role alternation, attempt summaries
      and the rendering of the attempt history.

    Shallow embedding of [src/chying_agent/retry_strategy.py] (class
    [RetryStrategy]) together with the part of [src/chying_agent/model.py]
    and [src/chying_agent/config.py] that its constructor runs.

    Python values are dynamically typed: they are embedded as the inductive
    [pyval]; Python [str] is a sequence of Unicode code points; [dict]s with
    string keys are [gmap string pyval]; exceptions are the [Raise] case of
    [result]. *)

From Stdlib Require Import ZArith NArith List Ascii String DecimalString Lia.
From stdpp Require Import gmap strings list.

Set Warnings "-register-all".
Local Open Scope Z_scope.

(** ** Python strings *)

(** A Python [str]: its code points, in order. *)
Definition pystr : Type := list N.

Module Utf8.

(** Decoder for the UTF-8 text of the source file's string literals. *)
Fixpoint decode (bs : list N) : pystr :=
  match bs with
  | [] => []
  | b0 :: r0 =>
    if (b0 <? 128)%N then b0 :: decode r0
    else match r0 with
    | [] => []
    | b1 :: r1 =>
      if (b0 <? 224)%N then ((b0 - 192) * 64 + (b1 - 128))%N :: decode r1
      else match r1 with
      | [] => []
      | b2 :: r2 =>
        if (b0 <? 240)%N
        then ((b0 - 224) * 4096 + (b1 - 128) * 64 + (b2 - 128))%N :: decode r2
        else match r2 with
        | [] => []
        | b3 :: r3 =>
          ((b0 - 240) * 262144 + (b1 - 128) * 4096
           + (b2 - 128) * 64 + (b3 - 128))%N :: decode r3
        end
      end
    end
  end.

End Utf8.

(** [u "..."] is the Python literal ["..."]. *)
Definition u (s : string) : pystr :=
  Utf8.decode (map N_of_ascii (list_ascii_of_string s)).
Arguments u : simpl never.

(** The newline written [\n] in the source. *)
Definition nl : pystr := [10%N].

(** [str(n)] and [f"{n}"] for an [int]. *)
Definition str_of_int (n : Z) : pystr :=
  map N_of_ascii (list_ascii_of_string (NilZero.string_of_int (Z.to_int n))).
Arguments str_of_int : simpl never.

(** [p] is a prefix of [s]: [s.startswith(p)]. *)
Fixpoint starts_with (p s : pystr) : bool :=
  match p, s with
  | [], _ => true
  | _ :: _, [] => false
  | a :: p', b :: s' => (a =? b)%N && starts_with p' s'
  end.

(** [kw in s] for two strings: [kw] occurs in [s] as a contiguous run. *)
Fixpoint str_contains (kw s : pystr) : bool :=
  starts_with kw s ||
  match s with
  | [] => false
  | _ :: s' => str_contains kw s'
  end.

(** [s.count(kw)] read with overlaps: the number of positions of [s] at which
    [kw] starts. *)
Fixpoint occurrences (kw s : pystr) : nat :=
  ((if starts_with kw s then 1 else 0) +
   match s with
   | [] => 0
   | _ :: s' => occurrences kw s'
   end)%nat.

(** ASCII part of [str.lower]: [A]..[Z] to [a]..[z]. *)
Definition ascii_lower_cp (c : N) : N :=
  if ((65 <=? c) && (c <=? 90))%N then (c + 32)%N else c.

(** Code points on which [str.lower] is the ASCII mapping: ASCII itself and
    the CJK unified ideographs (U+4E00..U+9FFF), which have no case. *)
Definition plain_cp (c : N) : bool :=
  ((c <? 128) || ((19968 <=? c) && (c <=? 40959)))%N.

(** ** Python values *)

Inductive pyval : Type :=
| PyNone
| PyBool (b : bool)
| PyInt (n : Z)
| PyStr (s : pystr)
| PyList (xs : list pyval)
    (** an instance of a class without [__bool__], [__len__], [__iter__] or
        [__getitem__]: what [str()] gives for it, and its attributes *)
| PyObj (rendering : pystr) (attrs : list (string * pyval)).

Inductive exn : Type :=
| TypeError
| ValueError
| ImportError
| ConnectionError.

Inductive result (A : Type) : Type :=
| Ok (a : A)
| Raise (e : exn).
Arguments Ok {A} a.
Arguments Raise {A} e.

#[global] Instance result_ret : MRet result := @Ok.

#[global] Instance result_bind : MBind result := fun A B k r =>
  match r with
  | Ok a => k a
  | Raise e => Raise e
  end.

(** Python's builtins whose full definition lies in the interpreter
    (the Unicode case tables, the quoting rules of [repr]). *)
Class PyBuiltins : Type := {
  str_lower : pystr -> pystr;      (* [s.lower()] *)
  py_repr : pyval -> pystr         (* [repr(v)] *)
}.

(** What [str.lower] does on strings without cased letters outside ASCII. *)
Definition lower_on_plain (B : PyBuiltins) : Prop :=
  forall s : pystr, forallb plain_cp s = true -> str_lower s = map ascii_lower_cp s.

Section Builtins.

Context {B : PyBuiltins}.

(** [str(v)]; a list has no [__str__] of its own, so [str] is [repr]. *)
Definition py_str (v : pyval) : pystr :=
  match v with
  | PyNone => u "None"
  | PyBool true => u "True"
  | PyBool false => u "False"
  | PyInt n => str_of_int n
  | PyStr s => s
  | PyList _ => py_repr v
  | PyObj rendering _ => rendering
  end.

(** Truth value testing: [if v:], [v and ...]. *)
Definition py_truth (v : pyval) : bool :=
  match v with
  | PyNone => false
  | PyBool b => b
  | PyInt n => negb (n =? 0)
  | PyStr s => negb (Nat.eqb (length s) 0)
  | PyList xs => negb (Nat.eqb (length xs) 0)
  | PyObj _ _ => true
  end.

(** The items [for x in v] runs over; [TypeError] when [v] is not
    iterable. *)
Definition py_iter (v : pyval) : result (list pyval) :=
  match v with
  | PyList xs => Ok xs
  | PyStr s => Ok (map (fun c => PyStr [c]) s)
  | PyNone | PyBool _ | PyInt _ | PyObj _ _ => Raise TypeError
  end.

(** [v[:n]]; [TypeError] when [v] is not subscriptable. *)
Definition py_slice_to (n : nat) (v : pyval) : result pyval :=
  match v with
  | PyList xs => Ok (PyList (take n xs))
  | PyStr s => Ok (PyStr (take n s))
  | PyNone | PyBool _ | PyInt _ | PyObj _ _ => Raise TypeError
  end.

(** [getattr(v, name)] when [hasattr(v, name)], [None] otherwise. *)
Fixpoint assoc (name : string) (attrs : list (string * pyval)) : option pyval :=
  match attrs with
  | [] => None
  | (k, v) :: rest => if String.eqb k name then Some v else assoc name rest
  end.

Definition py_getattr (v : pyval) (name : string) : option pyval :=
  match v with
  | PyObj _ attrs => assoc name attrs
  | _ => None
  end.

(** [d.get(key, dflt)]. *)
Definition dict_get (d : gmap string pyval) (key : string) (dflt : pyval) : pyval :=
  default dflt (d !! key).

End Builtins.

(** Builtins for running the definitions: the ASCII case mapping, and a
    [repr] that is exact on the empty list only (no input below renders
    another list). *)
Definition ascii_builtins : PyBuiltins :=
  {| str_lower := map ascii_lower_cp;
     py_repr := fun v => match v with PyList [] => u "[]" | _ => u "[...]" end |}.

(** ** Configuration, model handles and the session's world *)

(** The fields of [AgentConfig] (config.py) that the retry strategy and the
    model factories read for naming and dispatch. *)
Record AgentConfig : Type := {
  llm_backend : pystr;
  llm_model_name : pystr;
  ollama_main_model : pystr;
  ollama_advisor_model : pystr
}.

(** The chat-model objects the factories of model.py construct. *)
Inductive model_obj : Type :=
| ChatDeepSeek (model : pystr)
| ChatOpenAI
| ChatOllama (model : pystr).

(** A model handle is the identity of a model object: its position in the
    heap of objects created so far. *)
Definition handle : Type := nat.

Record world : Type := {
  heap : list model_obj;     (* objects, oldest first *)
  log : list pystr           (* messages passed to [log_system_event] *)
}.

(** What lies outside the repository when a model is constructed. *)
Record environment : Type := {
  ollama_installed : bool;        (* [from langchain_ollama import ...] works *)
  ollama_ctor : option exn;       (* exception of [ChatOllama(...)], if any *)
  ollama_reachable : bool;        (* the request to [/api/tags] is answered *)
  ollama_lists : pystr -> bool;   (* the model is among the names listed *)
  deepseek_ctor : option exn;     (* exception of [ChatDeepSeek(...)], if any *)
  openai_ctor : option exn        (* exception of [ChatOpenAI(...)], if any *)
}.

(** Computations that read and extend the world and may raise. *)
Definition M (A : Type) : Type := world -> result (A * world).

#[global] Instance M_ret : MRet M := fun A a w => Ok (a, w).

#[global] Instance M_bind : MBind M := fun A B k m w =>
  match m w with
  | Ok (a, w') => k a w'
  | Raise e => Raise e
  end.

Definition raise {A} (e : exn) : M A := fun _ => Raise e.

(** Modelled from the spec: [chying_agent.common.log_system_event], which is
    not among the sources; an informational log emission, kept as the list
    of emitted messages. *)
Definition log_system_event (msg : pystr) : M unit := fun w =>
  Ok (tt, {| heap := heap w; log := log w ++ [msg] |}).

(** Calling a class: a fresh object, whose identity no earlier object has. *)
Definition new_object (o : model_obj) : M handle := fun w =>
  Ok (length (heap w), {| heap := heap w ++ [o]; log := log w |}).

Definition is_ollama (config : AgentConfig) : bool :=
  bool_decide (llm_backend config = u "ollama").

(** [try: body except Exception: log_system_event(...); raise
    ConnectionError(...)]. *)
Definition or_connection_error {A} (body : M A) : M A := fun w =>
  match body w with
  | Ok r => Ok r
  | Raise _ => Raise ConnectionError
  end.

(** Calling a class whose constructor may raise. *)
Definition construct (ctor : option exn) (o : model_obj) : M handle :=
  match ctor with
  | Some e => raise e
  | None => new_object o
  end.

Section Factories.

Variable env : environment.

(** model_ollama.py, [_verify_ollama_connection]. *)
Definition _verify_ollama_connection (model : pystr) : M unit :=
  if ollama_reachable env then
    if ollama_lists env model
    then log_system_event (u "✅ Ollama 模型 '" ++ model ++ u "' 验证成功")
    else log_system_event (u "⚠️ 警告：模型 '" ++ model ++ u "' 未找到")
  else raise ConnectionError.

(** model_ollama.py, [create_ollama_model]. *)
Definition create_ollama_model (model : pystr) : M handle :=
  if ollama_installed env then
    _ ← log_system_event (u "✅ 创建 Ollama 模型实例");
    or_connection_error
      (model_instance ← construct (ollama_ctor env) (ChatOllama model);
       _ ← _verify_ollama_connection model;
       mret model_instance)
  else raise ImportError.

(** model.py, [_create_ollama_model]. *)
Definition _create_ollama_model (config : AgentConfig) : M handle :=
  model ← create_ollama_model (ollama_main_model config);
  _ ← log_system_event (u "✅ 创建 Ollama 主攻手模型");
  mret model.

(** model.py, [_create_api_model]. *)
Definition _create_api_model (config : AgentConfig) : M handle :=
  model ← construct (deepseek_ctor env) (ChatDeepSeek (llm_model_name config));
  _ ← log_system_event (u "✅ 创建 DeepSeek API 模型");
  mret model.

(** model.py, [create_model]. *)
Definition create_model (config : AgentConfig) : M handle :=
  if is_ollama config then _create_ollama_model config
  else _create_api_model config.

(** model.py, [create_advisor_model]. *)
Definition create_advisor_model (config : AgentConfig) : M handle :=
  if is_ollama config then
    model ← create_ollama_model (ollama_advisor_model config);
    _ ← log_system_event (u "✅ 创建 Ollama 顾问模型");
    mret model
  else
    model ← construct (openai_ctor env) ChatOpenAI;
    _ ← log_system_event (u "✅ 创建 MiniMax API 顾问模型");
    mret model.

End Factories.

(** ** class RetryStrategy *)

Record RetryStrategy : Type := {
  config : AgentConfig;
  main_llm : handle;
  advisor_llm : handle
}.

(** [RetryStrategy.__init__]. *)
Definition init (env : environment) (config : AgentConfig) : M RetryStrategy :=
  main_llm ← create_model env config;
  advisor_llm ← create_advisor_model env config;
  _ ← log_system_event (u "[重试策略] 初始化完成");
  mret {| config := config; main_llm := main_llm; advisor_llm := advisor_llm |}.

(** The display names chosen at the head of [get_llm_pair]. *)
Definition main_name (self : RetryStrategy) : pystr :=
  if is_ollama (config self) then ollama_main_model (config self) else u "DeepSeek".

Definition advisor_name (self : RetryStrategy) : pystr :=
  if is_ollama (config self) then ollama_advisor_model (config self) else u "MiniMax".

(** The text [f" [重试 {retry_count}]"]. *)
Definition retry_suffix (retry_count : Z) : pystr :=
  u " [重试 " ++ str_of_int retry_count ++ u "]".

(** [RetryStrategy.get_llm_pair]: (primary, advisor, description). *)
Definition get_llm_pair (self : RetryStrategy) (retry_count : Z)
  : M (handle * handle * pystr) :=
  let main_name := main_name self in
  let advisor_name := advisor_name self in
  let is_even := retry_count mod 2 =? 0 in
  if is_even then
    let strategy_desc := main_name ++ u " (主) + " ++ advisor_name ++ u " (顾问)" in
    let strategy_desc :=
      if retry_count >? 0 then strategy_desc ++ retry_suffix retry_count
      else strategy_desc in
    mret (main_llm self, advisor_llm self, strategy_desc)
  else
    _ ← log_system_event
          (u "[重试策略] 🔄 角色互换：" ++ advisor_name ++ u " 作为主 Agent");
    mret (advisor_llm self, main_llm self,
          advisor_name ++ u " (主) + " ++ main_name ++ u " (顾问)"
          ++ retry_suffix retry_count).

Section Attempts.

Context {B : PyBuiltins}.
Local Open Scope string_scope.
Local Open Scope list_scope.

(** *** [RetryStrategy.format_attempt_history] *)

Definition history_header : pystr :=
  u "## 📜 历史尝试记录（请避免重复这些失败的方法）" ++ nl.

Definition closing_note : pystr :=
  u "**⚠️ 重要提示**: 上述方法均已失败，请尝试完全不同的攻击角度！" ++ nl.

Definition attempt_heading (i : Z) (strategy : pyval) : pystr :=
  u "### 尝试 " ++ str_of_int i ++ u "：" ++ py_str strategy ++ nl.

Definition attempt_count_line (attempts_count : pyval) : pystr :=
  u "- **尝试次数**: " ++ py_str attempts_count ++ nl.

Definition failed_header : pystr := u "- **已失败的方法**:" ++ nl.

Definition failed_bullet (method : pyval) : pystr :=
  u "  - ❌ " ++ py_str method ++ nl.

Definition findings_header : pystr := u "- **关键发现**:" ++ nl.

Definition finding_bullet (finding : pyval) : pystr :=
  u "  - 💡 " ++ py_str finding ++ nl.

(** [for x in xs: formatted_parts.append(line(x))]. *)
Definition append_each (line : pyval -> pystr) (xs : list pyval)
           (formatted_parts : list pystr) : list pystr :=
  foldl (fun parts x => parts ++ [line x]) formatted_parts xs.

(** [if seq: append(header); for x in seq[:n]: append(line(x))]. *)
Definition bullet_block (header : pystr) (line : pyval -> pystr) (n : nat)
           (seq : pyval) (formatted_parts : list pystr) : result (list pystr) :=
  if py_truth seq then
    let formatted_parts := formatted_parts ++ [header] in
    shown ← py_slice_to n seq;
    items ← py_iter shown;
    mret (append_each line items formatted_parts)
  else mret formatted_parts.

(** The body of the loop over [enumerate(attempt_history, 1)]. *)
Definition format_attempt (i : Z) (attempt : gmap string pyval)
           (formatted_parts : list pystr) : result (list pystr) :=
  let strategy := dict_get attempt "strategy" (PyStr (u "未知策略")) in
  let attempts_count := dict_get attempt "attempts" (PyInt 0) in
  let failed_methods := dict_get attempt "failed_methods" (PyList []) in
  let key_findings := dict_get attempt "key_findings" (PyList []) in
  let formatted_parts := formatted_parts ++ [attempt_heading i strategy] in
  let formatted_parts := formatted_parts ++ [attempt_count_line attempts_count] in
  formatted_parts ←
    bullet_block failed_header failed_bullet 10 failed_methods formatted_parts;
  formatted_parts ←
    bullet_block findings_header finding_bullet 5 key_findings formatted_parts;
  mret (formatted_parts ++ [nl]).

Fixpoint format_loop (i : Z) (attempt_history : list (gmap string pyval))
         (formatted_parts : list pystr) : result (list pystr) :=
  match attempt_history with
  | [] => mret formatted_parts
  | attempt :: rest =>
    formatted_parts ← format_attempt i attempt formatted_parts;
    format_loop (i + 1) rest formatted_parts
  end.

(** The list [formatted_parts] as it stands at the final [join]. *)
Definition format_parts (attempt_history : list (gmap string pyval))
  : result (list pystr) :=
  formatted_parts ← format_loop 1 attempt_history [history_header];
  mret (formatted_parts ++ [closing_note]).

Definition format_attempt_history (attempt_history : list (gmap string pyval))
  : result pystr :=
  match attempt_history with
  | [] => mret []
  | _ :: _ =>
    formatted_parts ← format_parts attempt_history;
    mret (concat formatted_parts)
  end.

(** *** [RetryStrategy.extract_attempt_summary] *)

Definition failure_keywords : list pystr :=
  [u "失败"; u "错误"; u "error"; u "failed"].

(** [any(keyword in str(action).lower() for keyword in [...])]. *)
Definition is_failure (action : pyval) : bool :=
  existsb (fun keyword => str_contains keyword (str_lower (py_str action)))
          failure_keywords.

(** The loop that fills [failed_methods]. *)
Definition collect_failed (actions : list pyval) : list pyval :=
  foldl (fun failed_methods action =>
           if is_failure action
           then failed_methods ++ [PyStr (py_str action)]
           else failed_methods)
        [] actions.

(** [hasattr(m, 'tool_calls') and m.tool_calls]. *)
Definition has_tool_calls (m : pyval) : bool :=
  match py_getattr m "tool_calls" with
  | Some tool_calls => py_truth tool_calls
  | None => false
  end.

Definition extract_attempt_summary (final_state : gmap string pyval)
           (strategy : pystr) : result (gmap string pyval) :=
  let action_history := dict_get final_state "action_history" (PyList []) in
  let messages := dict_get final_state "messages" (PyList []) in
  actions ← py_iter action_history;
  let failed_methods := collect_failed actions in
  let key_findings :=
    dict_get final_state "potential_vulnerabilities" (PyList []) in
  ms ← py_iter messages;
  let attempts_count := Z.of_nat (length (List.filter has_tool_calls ms)) in
  findings ←
    (if py_truth key_findings
     then vs ← py_iter key_findings; mret (map (fun v => PyStr (py_str v)) vs)
     else mret []);
  mret (<["strategy" := PyStr strategy]>
        (<["attempts" := PyInt attempts_count]>
        (<["failed_methods" := PyList failed_methods]>
        (<["key_findings" := PyList findings]>
        (<["timestamp" := dict_get final_state "start_time" PyNone]> ∅))))).

End Attempts.

(** ** Readings of the results, used to state the properties *)

(** The two display names with their role labels, as both f-strings of
    [get_llm_pair] lay them out. *)
Definition role_description (primary_name advisor_name : pystr) : pystr :=
  primary_name ++ u " (主) + " ++ advisor_name ++ u " (顾问)".

(** A session to run the definitions on. *)
Definition fresh_world : world := {| heap := []; log := [] |}.

Definition all_up : environment :=
  {| ollama_installed := true; ollama_ctor := None;
     ollama_reachable := true; ollama_lists := fun _ => true;
     deepseek_ctor := None; openai_ctor := None |}.

Definition default_config : AgentConfig :=
  {| llm_backend := u "api";
     llm_model_name := u "deepseek-v3.1-terminus";
     ollama_main_model := u "deepseek-r1:32b";
     ollama_advisor_model := u "qwen3:latest" |}.

Definition default_strategy : RetryStrategy :=
  {| config := default_config; main_llm := 0%nat; advisor_llm := 1%nat |}.

(** The world the constructor leaves when run in [fresh_world]. *)
Definition constructed_world : world :=
  {| heap := [ChatDeepSeek (u "deepseek-v3.1-terminus"); ChatOpenAI];
     log := [u "✅ 创建 DeepSeek API 模型"; u "✅ 创建 MiniMax API 顾问模型";
             u "[重试策略] 初始化完成"] |}.

Section Readings.

Context {B : PyBuiltins}.
Local Open Scope string_scope.
Local Open Scope list_scope.

(** A list or a str: what [for] and [[:n]] both accept. *)
Definition is_sequence (v : pyval) : bool :=
  match v with
  | PyList _ | PyStr _ => true
  | _ => false
  end.

(** The items of a sequence; other values have none. *)
Definition seq_items (v : pyval) : list pyval :=
  match v with
  | PyList xs => xs
  | PyStr s => map (fun c => PyStr [c]) s
  | _ => []
  end.

(** A value that is skipped by [if v:] or is a sequence. *)
Definition falsy_or_sequence (v : pyval) : bool :=
  negb (py_truth v) || is_sequence v.

(** An attempt whose [failed_methods] and [key_findings], when present,
    are falsy or sequences (as in every summary that
    [extract_attempt_summary] builds). *)
Definition attempt_renderable (attempt : gmap string pyval) : bool :=
  falsy_or_sequence (dict_get attempt "failed_methods" (PyList []))
  && falsy_or_sequence (dict_get attempt "key_findings" (PyList [])).

(** A raw result whose action log and messages, when present, are
    sequences and whose discovered facts are falsy or a sequence. *)
Definition state_well_shaped (final_state : gmap string pyval) : bool :=
  is_sequence (dict_get final_state "action_history" (PyList []))
  && is_sequence (dict_get final_state "messages" (PyList []))
  && falsy_or_sequence
       (dict_get final_state "potential_vulnerabilities" (PyList [])).

(** The bullet entries of one list of a section. *)
Definition shown_bullets (line : pyval -> pystr) (n : nat) (seq : pyval)
  : list pystr :=
  map line (take n (seq_items seq)).

(** One bullet list of a section: header and entries, or nothing. *)
Definition block (header : pystr) (line : pyval -> pystr) (n : nat)
           (seq : pyval) : list pystr :=
  if py_truth seq then header :: shown_bullets line n seq else [].

(** The parts of the section of attempt number [i]. *)
Definition section (i : Z) (attempt : gmap string pyval) : list pystr :=
  [attempt_heading i (dict_get attempt "strategy" (PyStr (u "未知策略")));
   attempt_count_line (dict_get attempt "attempts" (PyInt 0))]
  ++ block failed_header failed_bullet 10
           (dict_get attempt "failed_methods" (PyList []))
  ++ block findings_header finding_bullet 5
           (dict_get attempt "key_findings" (PyList []))
  ++ [nl].

Fixpoint sections_from (i : Z) (attempt_history : list (gmap string pyval))
  : list (list pystr) :=
  match attempt_history with
  | [] => []
  | attempt :: rest => section i attempt :: sections_from (i + 1) rest
  end.

(** The text of all per-attempt sections, in order. *)
Definition sections_text (attempt_history : list (gmap string pyval)) : pystr :=
  concat (concat (sections_from 1 attempt_history)).

(** [str(x)] of every item, as a Python list of str. *)
Definition rendered (xs : list pyval) : list pyval :=
  map (fun x => PyStr (py_str x)) xs.

(** The message sequence, action log and discovered facts of a raw
    result. *)
Definition message_sequence (final_state : gmap string pyval) : list pyval :=
  seq_items (dict_get final_state "messages" (PyList [])).

Definition action_log (final_state : gmap string pyval) : list pyval :=
  seq_items (dict_get final_state "action_history" (PyList [])).

Definition discovered_facts (final_state : gmap string pyval) : list pyval :=
  seq_items (dict_get final_state "potential_vulnerabilities" (PyList [])).

(** The dict that [extract_attempt_summary] returns, by its five values. *)
Definition summary_dict (strategy : pystr) (attempts : Z)
           (failed_methods key_findings : list pyval) (timestamp : pyval)
  : gmap string pyval :=
  <["strategy" := PyStr strategy]>
  (<["attempts" := PyInt attempts]>
  (<["failed_methods" := PyList failed_methods]>
  (<["key_findings" := PyList key_findings]>
  (<["timestamp" := timestamp]> ∅)))).

(** No code point of [s] is [c]. *)
Definition free_of (c : N) (s : pystr) : bool :=
  forallb (fun x => negb (x =? c)%N) s.

(** Does the claimed bound of 10 and 5 hold of a summary? *)
Definition summary_bounded (summary : gmap string pyval) : Prop :=
  exists failed_methods key_findings,
    summary !! "failed_methods" = Some (PyList failed_methods) /\
    summary !! "key_findings" = Some (PyList key_findings) /\
    (length failed_methods <= 10)%nat /\ (length key_findings <= 5)%nat.

End Readings.

(** ** Inputs of the scenarios *)

Section Scenarios.

Local Open Scope string_scope.
Local Open Scope list_scope.

Definition scenario_log : list pyval :=
  [PyStr (u "tool call succeeded");
   PyStr (u "tool call failed: timeout");
   PyStr (u "错误: invalid input")].

Definition scenario_state : gmap string pyval :=
  <["action_history" := PyList scenario_log]> ∅.

(** Six discovered facts and no action log. *)
Definition six_facts_state : gmap string pyval :=
  <["potential_vulnerabilities" :=
      PyList (map (fun n => PyStr (str_of_int n)) [1; 2; 3; 4; 5; 6])]> ∅.

(** Eleven failed actions. *)
Definition eleven_failures_state : gmap string pyval :=
  <["action_history" := PyList (replicate 11 (PyStr (u "error")))]> ∅.

(** A summary with twelve failed methods, followed by an empty one. *)
Definition twelve_failed : gmap string pyval :=
  <["failed_methods" :=
      PyList (map (fun n => PyStr (str_of_int n))
                  [1; 2; 3; 4; 5; 6; 7; 8; 9; 10; 11; 12])]> ∅.

Definition twelve_history : list (gmap string pyval) := [twelve_failed; ∅].

(** A history whose only summary has the closing note as its label. *)
Definition echo_history : list (gmap string pyval) :=
  [<["strategy" := PyStr closing_note]> ∅].

(** A message with two tool calls, one with none, one without the
    attribute. *)
Definition three_messages_state : gmap string pyval :=
  <["messages" :=
      PyList [PyObj (u "ai") [("tool_calls", PyList [PyInt 1; PyInt 2])];
              PyObj (u "ai") [("tool_calls", PyList [])];
              PyObj (u "human") []] ]> ∅.

End Scenarios.

(** ** config.py: loading the configuration from the environment *)

(** [float(s)] and [int(s)] for a str: their grammar lies in the
    interpreter; [None] stands for the [ValueError] they raise. *)
Class PyParsers : Type := {
  pyfloat : Type;
  py_float : pystr -> option pyfloat;
  py_int : pystr -> option Z
}.

(** The value of a conversion, or its [ValueError]. *)
Definition parsed {A} (o : option A) : result A :=
  match o with
  | Some a => Ok a
  | None => Raise ValueError
  end.

(** [a or b] for two values of [os.getenv(key)]: [a] unless it is [None]
    or the empty string. *)
Definition getenv_or_else (a b : option pystr) : option pystr :=
  match a with
  | Some (_ :: _) => a
  | _ => b
  end.

(** [not v] for a value of [os.getenv(key)]. *)
Definition unset_or_empty (v : option pystr) : bool :=
  match v with
  | Some (_ :: _) => false
  | _ => true
  end.

Module Config.

Section Loader.

Context {B : PyBuiltins} {P : PyParsers}.
Local Open Scope string_scope.
Local Open Scope list_scope.

(** [class AgentConfig], with all its attributes. *)
Record AgentConfig : Type := {
  llm_backend : pystr;
  llm_api_key : option pystr;
  llm_base_url : option pystr;
  llm_model_name : pystr;
  ollama_base_url : pystr;
  ollama_main_model : pystr;
  ollama_advisor_model : pystr;
  ollama_temperature : pyfloat;
  ollama_num_ctx : Z;
  ollama_num_predict : Z;
  ollama_timeout : Z;
  env_mode : pystr;
  docker_container_name : option pystr;
  sandbox_enabled : bool;
  sandbox_name : pystr
}.

(** [os.getenv(key)] and [os.getenv(key, dflt)] on the process environment
    as [load_dotenv()] leaves it. *)
Definition getenv (environ : gmap string pystr) (key : string) : option pystr :=
  environ !! key.

Definition getenv_default (environ : gmap string pystr) (key : string)
           (dflt : pystr) : pystr :=
  default dflt (environ !! key).

(** The API settings read under [if llm_backend == "api":], or the values
    the three variables are initialised with. *)
Definition api_settings (environ : gmap string pystr) (llm_backend : pystr)
  : result (option pystr * option pystr * pystr) :=
  if bool_decide (llm_backend = u "api") then
    let llm_api_key :=
      getenv_or_else (getenv environ "DEEPSEEK_API_KEY")
                     (getenv environ "OPENAI_API_KEY") in
    if unset_or_empty llm_api_key then Raise ValueError
    else
      let llm_base_url :=
        getenv_default environ "DEEPSEEK_BASE_URL"
                       (u "https://api.lkeap.cloud.tencent.com/v1") in
      let llm_model_name :=
        getenv_default environ "LLM_MODEL_NAME" (u "deepseek-v3.1-terminus") in
      mret (llm_api_key, Some llm_base_url, llm_model_name)
  else mret (None, None, u "deepseek-v3.1-terminus").

(** [load_agent_config]. *)
Definition load_agent_config (environ : gmap string pystr) : result AgentConfig :=
  let llm_backend := str_lower (getenv_default environ "LLM_BACKEND" (u "api")) in
  if negb (bool_decide (llm_backend ∈ [u "api"; u "ollama"])) then Raise ValueError
  else
    '(llm_api_key, llm_base_url, llm_model_name) ← api_settings environ llm_backend;
    let ollama_base_url :=
      getenv_default environ "OLLAMA_BASE_URL" (u "http://192.168.10.117:11434") in
    let ollama_main_model :=
      getenv_default environ "OLLAMA_MAIN_MODEL" (u "deepseek-r1:32b") in
    let ollama_advisor_model :=
      getenv_default environ "OLLAMA_ADVISOR_MODEL" (u "qwen3:latest") in
    ollama_temperature ←
      parsed (py_float (getenv_default environ "OLLAMA_TEMPERATURE" (u "0.5")));
    ollama_num_ctx ←
      parsed (py_int (getenv_default environ "OLLAMA_NUM_CTX" (u "8192")));
    ollama_num_predict ←
      parsed (py_int (getenv_default environ "OLLAMA_NUM_PREDICT" (u "4096")));
    ollama_timeout ←
      parsed (py_int (getenv_default environ "OLLAMA_TIMEOUT" (u "300")));
    let env_mode := str_lower (getenv_default environ "ENV_MODE" (u "competition")) in
    if negb (bool_decide (env_mode ∈ [u "competition"])) then Raise ValueError
    else
      let docker_container_name := getenv environ "DOCKER_CONTAINER_NAME" in
      let sandbox_enabled :=
        bool_decide (str_lower (getenv_default environ "SANDBOX_ENABLED" (u "false"))
                     = u "true") in
      let sandbox_name :=
        getenv_default environ "SANDBOX_NAME" (u "CHYing-sandbox") in
      mret {| llm_backend := llm_backend;
              llm_api_key := llm_api_key;
              llm_base_url := llm_base_url;
              llm_model_name := llm_model_name;
              ollama_base_url := ollama_base_url;
              ollama_main_model := ollama_main_model;
              ollama_advisor_model := ollama_advisor_model;
              ollama_temperature := ollama_temperature;
              ollama_num_ctx := ollama_num_ctx;
              ollama_num_predict := ollama_num_predict;
              ollama_timeout := ollama_timeout;
              env_mode := env_mode;
              docker_container_name := docker_container_name;
              sandbox_enabled := sandbox_enabled;
              sandbox_name := sandbox_name |}.

End Loader.

End Config.

(** The attributes of a loaded configuration that the model factories and
    the retry strategy read for naming and dispatch. *)
Definition naming_of {P : PyParsers} (c : Config.AgentConfig) : AgentConfig :=
  {| llm_backend := Config.llm_backend c;
     llm_model_name := Config.llm_model_name c;
     ollama_main_model := Config.ollama_main_model c;
     ollama_advisor_model := Config.ollama_advisor_model c |}.

(** Parsers for running the definitions: [int] on plain runs of ASCII
    digits, [float] kept as its non-empty text. *)
Fixpoint digits_value (acc : Z) (s : pystr) : option Z :=
  match s with
  | [] => Some acc
  | c :: s' =>
    if ((48 <=? c) && (c <=? 57))%N
    then digits_value (10 * acc + Z.of_N (c - 48)) s'
    else None
  end.

Definition digit_parsers : PyParsers :=
  {| pyfloat := pystr;
     py_float := fun s => match s with [] => None | _ => Some s end;
     py_int := fun s => match s with [] => None | _ => digits_value 0 s end |}.

(** Environments of the scenarios. *)
Definition api_environ : gmap string pystr :=
  <["DEEPSEEK_API_KEY"%string := u "sk-test"]> ∅.

Definition ollama_environ : gmap string pystr :=
  <["LLM_BACKEND"%string := u "OLLAMA"]>
  (<["OLLAMA_MAIN_MODEL"%string := u "qwen3:30b"]> ∅).



(** The summary of the scenario's raw result under the strategy label
    "DeepSeek", and a raw result whose action log is its failed methods. *)
Definition scenario_summary : gmap string pyval :=
  summary_dict (u "DeepSeek") 0
               [PyStr (u "tool call failed: timeout");
                PyStr (u "错误: invalid input")]
               [] PyNone.

Definition scenario_again : gmap string pyval :=
  <["action_history"%string :=
      PyList [PyStr (u "tool call failed: timeout");
              PyStr (u "错误: invalid input")]]> ∅.

(** A strategy on the Ollama backend whose main model name carries a
    zero. *)
Definition qwen_config : AgentConfig :=
  {| llm_backend := u "ollama";
     llm_model_name := u "deepseek-v3.1-terminus";
     ollama_main_model := u "qwen3:30b";
     ollama_advisor_model := u "qwen3:latest" |}.

Definition qwen_strategy : RetryStrategy :=
  {| config := qwen_config; main_llm := 0%nat; advisor_llm := 1%nat |}.

Section MarkerReadings.

Context {B : PyBuiltins}.
Local Open Scope string_scope.
Local Open Scope list_scope.

(** The texts of a summary that its section shows: label, count, and the
    failed methods and key findings that are within the limits. *)
Definition shown_texts (attempt : gmap string pyval) : list pystr :=
  [py_str (dict_get attempt "strategy" (PyStr (u "未知策略")));
   py_str (dict_get attempt "attempts" (PyInt 0))]
  ++ map py_str (take 10 (seq_items (dict_get attempt "failed_methods" (PyList []))))
  ++ map py_str (take 5 (seq_items (dict_get attempt "key_findings" (PyList [])))).

(** None of these texts carries the cross mark U+274C or the light bulb
    U+1F4A1 of the two bullet markers. *)
Definition marker_free (attempt : gmap string pyval) : bool :=
  forallb (fun t => free_of 10060 t && free_of 128161 t) (shown_texts attempt).

End MarkerReadings.

(** A summary whose twelve failed methods each quote a bullet line. *)
Definition bulleted_failed : gmap string pyval :=
  <["failed_methods"%string :=
      PyList (replicate 12 (PyStr (u "nmap" ++ nl ++ u "  - ❌ sqlmap")))]> ∅.
(** * Properties *)

(** ** Strings *)

Lemma starts_with_spec (p s : pystr) :
  starts_with p s = true <-> exists post, s = p ++ post.
Proof.
  revert s. induction p as [|a p IH]; intros s; simpl.
  - split; [intros _; exists s; reflexivity | reflexivity].
  - destruct s as [|b s]; simpl.
    + split; [discriminate | intros [post H]; discriminate].
    + rewrite andb_true_iff, N.eqb_eq, IH. split.
      * intros [-> [post ->]]. exists post. reflexivity.
      * intros [post H]. injection H as -> ->. eauto.
Qed.

Lemma str_contains_spec (kw s : pystr) :
  str_contains kw s = true <-> exists pre post, s = pre ++ kw ++ post.
Proof.
  induction s as [|c s IH]; simpl.
  - rewrite orb_false_r, starts_with_spec. split.
    + intros [post H]. exists [], post. exact H.
    + intros [pre [post H]]. destruct pre; [eauto | discriminate].
  - rewrite orb_true_iff, starts_with_spec, IH. split.
    + intros [[post H] | [pre [post H]]].
      * exists [], post. exact H.
      * exists (c :: pre), post. simpl. congruence.
    + intros [[|c' pre] [post H]].
      * left. exists post. exact H.
      * right. injection H as -> ->. eauto.
Qed.

Lemma starts_with_refl (kw post : pystr) : starts_with kw (kw ++ post) = true.
Proof. apply starts_with_spec. eauto. Qed.

Lemma occurrences_app_ge (kw pre s : pystr) :
  (occurrences kw s <= occurrences kw (pre ++ s))%nat.
Proof.
  induction pre as [|c pre IH]; simpl; [lia|].
  destruct (starts_with kw (c :: pre ++ s)); lia.
Qed.

Lemma occurrences_self_pos (kw : pystr) : (1 <= occurrences kw kw)%nat.
Proof.
  pose proof (starts_with_refl kw []) as H. rewrite app_nil_r in H.
  destruct kw as [|c kw]; simpl in *; [lia|]. rewrite H. lia.
Qed.

Lemma count_occ_drop_S (c : N) (k : nat) (s : pystr) :
  (count_occ N.eq_dec (drop (S k) s) c <= count_occ N.eq_dec (drop k s) c)%nat.
Proof.
  destruct (s !! k) as [y|] eqn:Hy.
  - rewrite (drop_S s y k Hy). simpl. destruct (N.eq_dec y c); lia.
  - apply lookup_ge_None in Hy. rewrite !drop_ge by lia. simpl. lia.
Qed.

(** A code point that [kw] carries at index [k] bounds the occurrences of
    [kw] in [s] by its own number of occurrences. *)
Lemma occurrences_le_count (c : N) (k : nat) (kw s : pystr) :
  kw !! k = Some c ->
  (occurrences kw s <= count_occ N.eq_dec (drop k s) c)%nat.
Proof.
  intros Hk. revert k Hk. induction s as [|x s IH]; intros k Hk.
  - simpl. destruct kw as [|a kw]; [discriminate|]. simpl. lia.
  - assert (Hsw : starts_with kw (x :: s) = true -> (x :: s) !! k = Some c).
    { intros H. apply starts_with_spec in H as [post H]. rewrite H.
      rewrite lookup_app_l; [exact Hk|]. eapply lookup_lt_Some, Hk. }
    change (occurrences kw (x :: s))
      with ((if starts_with kw (x :: s) then 1 else 0) + occurrences kw s)%nat.
    destruct k as [|k].
    + specialize (IH 0%nat Hk). rewrite drop_0 in *.
      simpl count_occ. destruct (starts_with kw (x :: s)).
      * specialize (Hsw eq_refl). simpl in Hsw. injection Hsw as ->.
        destruct (N.eq_dec c c); [lia | congruence].
      * destruct (N.eq_dec x c); lia.
    + change (drop (S k) (x :: s)) with (drop k s).
      specialize (IH (S k) Hk).
      destruct (starts_with kw (x :: s)).
      * specialize (Hsw eq_refl). simpl in Hsw.
        rewrite (drop_S s c k Hsw). simpl count_occ.
        destruct (N.eq_dec c c); [lia | congruence].
      * pose proof (count_occ_drop_S c k s). lia.
Qed.

(** ** Construction and role assignment *)

Lemma construct_fresh ctor o w h w' :
  construct ctor o w = Ok (h, w') ->
  h = length (heap w) /\ heap w' = heap w ++ [o].
Proof.
  unfold construct. destruct ctor; [discriminate|].
  intros H. injection H as <- <-. split; reflexivity.
Qed.

Lemma log_system_event_heap msg w r w' :
  log_system_event msg w = Ok (r, w') -> heap w' = heap w.
Proof. intros H. injection H as _ <-. reflexivity. Qed.

Lemma _verify_ollama_connection_heap env model w r w' :
  _verify_ollama_connection env model w = Ok (r, w') -> heap w' = heap w.
Proof.
  unfold _verify_ollama_connection.
  destruct (ollama_reachable env); [|discriminate].
  destruct (ollama_lists env model); apply log_system_event_heap.
Qed.

(** A step that returns a fresh handle, followed by a step that keeps the
    heap, returns that handle for the heap extended by the one object. *)
Lemma fresh_then_keep {A} (m : M handle) (k : M A) o w h w' :
  (forall w0 h0 w1, m w0 = Ok (h0, w1) ->
                    h0 = length (heap w0) /\ heap w1 = heap w0 ++ [o]) ->
  (forall w0 r w1, k w0 = Ok (r, w1) -> heap w1 = heap w0) ->
  (model ← m; _ ← k; mret model) w = Ok (h, w') ->
  h = length (heap w) /\ heap w' = heap w ++ [o].
Proof.
  intros Hm Hk. unfold mbind, M_bind, mret, M_ret.
  destruct (m w) as [[h0 w0]|e] eqn:E; [|discriminate].
  destruct (k w0) as [[r w1]|e] eqn:E'; [|discriminate].
  intros H. injection H as <- <-.
  destruct (Hm _ _ _ E) as [-> Hheap]. rewrite (Hk _ _ _ E'), Hheap.
  split; reflexivity.
Qed.

Lemma create_ollama_model_fresh env model w h w' :
  create_ollama_model env model w = Ok (h, w') ->
  h = length (heap w) /\ heap w' = heap w ++ [ChatOllama model].
Proof.
  unfold create_ollama_model.
  destruct (ollama_installed env); [|discriminate].
  unfold mbind at 1, M_bind at 1. cbn [log_system_event].
  unfold or_connection_error.
  match goal with
  | |- match ?body ?w0 with _ => _ end = _ -> _ =>
    destruct (body w0) as [[h0 w1]|e] eqn:E; [|discriminate]
  end.
  intros H. injection H as <- <-.
  apply (fresh_then_keep _ _ (ChatOllama model)) in E.
  - exact E.
  - intros ? ? ?. apply construct_fresh.
  - intros ? ? ?. apply _verify_ollama_connection_heap.
Qed.

Lemma create_model_fresh env cfg w h w' :
  create_model env cfg w = Ok (h, w') ->
  h = length (heap w) /\ exists o, heap w' = heap w ++ [o].
Proof.
  unfold create_model, _create_ollama_model, _create_api_model.
  destruct (is_ollama cfg); intros H;
    eapply fresh_then_keep in H;
    try (intros ? ? ?; apply log_system_event_heap).
  - destruct H as [-> H]. eauto.
  - intros ? ? ?. apply create_ollama_model_fresh.
  - destruct H as [-> H]. eauto.
  - intros ? ? ?. apply construct_fresh.
Qed.

Lemma create_advisor_model_fresh env cfg w h w' :
  create_advisor_model env cfg w = Ok (h, w') ->
  h = length (heap w) /\ exists o, heap w' = heap w ++ [o].
Proof.
  unfold create_advisor_model.
  destruct (is_ollama cfg); intros H;
    eapply fresh_then_keep in H;
    try (intros ? ? ?; apply log_system_event_heap).
  - destruct H as [-> H]. eauto.
  - intros ? ? ?. apply create_ollama_model_fresh.
  - destruct H as [-> H]. eauto.
  - intros ? ? ?. apply construct_fresh.
Qed.

(** The constructor leaves two fresh objects, the main model first. *)
Lemma init_handles env cfg w self w' :
  init env cfg w = Ok (self, w') ->
  config self = cfg /\
  main_llm self = length (heap w) /\
  advisor_llm self = S (length (heap w)) /\
  exists om oa, heap w' = heap w ++ [om; oa].
Proof.
  unfold init, mbind, M_bind.
  destruct (create_model env cfg w) as [[hm w1]|e] eqn:E1; [|discriminate].
  destruct (create_advisor_model env cfg w1) as [[ha w2]|e] eqn:E2; [|discriminate].
  apply create_model_fresh in E1 as [-> [om E1]].
  apply create_advisor_model_fresh in E2 as [-> [oa E2]].
  intros H. injection H as <- <-. simpl.
  rewrite E2, E1, length_app, <- app_assoc. simpl.
  repeat split; [lia|]. eauto.
Qed.

Lemma get_llm_pair_even self i w :
  i mod 2 = 0 ->
  get_llm_pair self i w =
  Ok ((main_llm self, advisor_llm self,
       role_description (main_name self) (advisor_name self)
       ++ (if i >? 0 then retry_suffix i else [])), w).
Proof.
  intros H. unfold get_llm_pair, role_description. rewrite H.
  change (0 =? 0) with true. cbv iota.
  destruct (i >? 0); unfold mret, M_ret; rewrite <- ?app_assoc, ?app_nil_r;
    reflexivity.
Qed.

Lemma get_llm_pair_odd self i w :
  i mod 2 = 1 ->
  get_llm_pair self i w =
  Ok ((advisor_llm self, main_llm self,
       role_description (advisor_name self) (main_name self) ++ retry_suffix i),
      {| heap := heap w;
         log := log w ++ [u "[重试策略] 🔄 角色互换：" ++ advisor_name self
                          ++ u " 作为主 Agent"] |}).
Proof.
  intros H. unfold get_llm_pair, role_description. rewrite H.
  change (1 =? 0) with false. cbv iota.
  unfold mbind, M_bind, mret, M_ret, log_system_event.
  rewrite <- !app_assoc. reflexivity.
Qed.

Lemma parity_cases (i : Z) :
  (Z.even i = true /\ i mod 2 = 0) \/ (Z.odd i = true /\ i mod 2 = 1).
Proof.
  rewrite Zmod_even. destruct (Z.even i) eqn:E; [left | right]; split; trivial.
  rewrite <- Z.negb_even, E. reflexivity.
Qed.

Lemma last_role_description (p a : pystr) :
  last (role_description p a) = Some 41%N.
Proof.
  unfold role_description.
  change (u " (顾问)") with ([32; 40; 39038; 38382]%N ++ [41%N]).
  rewrite !app_assoc. apply last_snoc.
Qed.

Lemma last_retry_suffix (i : Z) : last (retry_suffix i) = Some 93%N.
Proof.
  unfold retry_suffix. change (u "]") with [93%N].
  rewrite !app_assoc. apply last_snoc.
Qed.

Lemma last_suffix (l k : pystr) (x : N) :
  last k = Some x -> k `suffix_of` l -> last l = Some x.
Proof.
  intros Hk [pre ->]. destruct k as [|y k] using rev_ind; [discriminate|].
  rewrite last_snoc in Hk. rewrite app_assoc, last_snoc. exact Hk.
Qed.

(** C1: for every retry index [i >= 0] the role decision makes the main
    handle primary and the advisor handle advisor when [i] is even, and the
    reverse when [i] is odd; the handles returned are the two objects created
    by the constructor, they are distinct, each takes exactly one of the two
    roles, and they are the same whatever the world in which the call is
    made (so also on a second call with the same index). *)
Theorem get_llm_pair_alternates env cfg w0 self w1 (i : Z) :
  init env cfg w0 = Ok (self, w1) ->
  0 <= i ->
  (exists om oa,
      heap w1 = heap w0 ++ [om; oa] /\
      heap w0 !! main_llm self = None /\ heap w1 !! main_llm self = Some om /\
      heap w0 !! advisor_llm self = None /\ heap w1 !! advisor_llm self = Some oa) /\
  main_llm self <> advisor_llm self /\
  exists primary advisor,
    (Z.even i = true -> primary = main_llm self /\ advisor = advisor_llm self) /\
    (Z.odd i = true -> primary = advisor_llm self /\ advisor = main_llm self) /\
    primary <> advisor /\
    (forall h, h = main_llm self \/ h = advisor_llm self
               <-> h = primary \/ h = advisor) /\
    forall w, exists desc w',
      get_llm_pair self i w = Ok ((primary, advisor, desc), w') /\
      heap w' = heap w.
Proof.
  intros Hinit Hi.
  destruct (init_handles _ _ _ _ _ Hinit) as (_ & Hm & Ha & om & oa & Hheap).
  assert (Hne : main_llm self <> advisor_llm self) by lia.
  split; [|split; [exact Hne|]].
  - exists om, oa. rewrite Hm, Ha, Hheap. repeat split.
    + apply lookup_ge_None. lia.
    + rewrite lookup_app_r by lia. replace (_ - _)%nat with 0%nat by lia. reflexivity.
    + apply lookup_ge_None. lia.
    + rewrite lookup_app_r by lia. replace (_ - _)%nat with 1%nat by lia. reflexivity.
  - destruct (parity_cases i) as [[He Hmod] | [Ho Hmod]].
    + exists (main_llm self), (advisor_llm self).
      assert (Z.odd i = false) as Ho by (rewrite <- Z.negb_even, He; reflexivity).
      repeat split; try tauto; try congruence.
      intros w. eexists _, _. rewrite (get_llm_pair_even _ _ _ Hmod). eauto.
    + exists (advisor_llm self), (main_llm self).
      assert (Z.even i = false) as He by (rewrite <- Z.negb_odd, Ho; reflexivity).
      repeat split; try tauto; try congruence.
      intros w. eexists _, _. rewrite (get_llm_pair_odd _ _ _ Hmod). eauto.
Qed.

Lemma get_llm_pair_alternates_witness :
  init all_up default_config fresh_world = Ok (default_strategy, constructed_world) /\
  0 <= 3 /\
  main_llm default_strategy <> advisor_llm default_strategy.
Proof.
  assert (H1 : init all_up default_config fresh_world
               = Ok (default_strategy, constructed_world)) by reflexivity.
  assert (H2 : 0 <= 3) by lia.
  split; [exact H1 | split; [exact H2|]].
  exact (proj1 (proj2 (get_llm_pair_alternates _ _ _ _ _ 3 H1 H2))).
Defined.

(** C9: for every negative [retry_count] the role decision returns (no
    exception) and assigns the roles by [retry_count % 2] with Python's
    floored remainder: [-1] makes the advisor handle primary, [-2] the main
    handle. *)
Theorem get_llm_pair_negative self (retry_count : Z) w :
  retry_count < 0 ->
  (exists desc w',
      get_llm_pair self retry_count w
      = Ok ((if retry_count mod 2 =? 0 then main_llm self else advisor_llm self,
             if retry_count mod 2 =? 0 then advisor_llm self else main_llm self,
             desc), w') /\
      heap w' = heap w) /\
  (exists desc w',
      get_llm_pair self (-1) w = Ok ((advisor_llm self, main_llm self, desc), w')) /\
  (exists desc w',
      get_llm_pair self (-2) w = Ok ((main_llm self, advisor_llm self, desc), w')).
Proof.
  intros _. split; [|split].
  - destruct (parity_cases retry_count) as [[_ Hmod] | [_ Hmod]].
    + rewrite (get_llm_pair_even _ _ _ Hmod), Hmod. simpl. eauto.
    + rewrite (get_llm_pair_odd _ _ _ Hmod), Hmod. simpl. eauto.
  - rewrite (get_llm_pair_odd self (-1) w eq_refl). eauto.
  - rewrite (get_llm_pair_even self (-2) w eq_refl). eauto.
Qed.

Lemma get_llm_pair_negative_witness :
  -3 < 0 /\
  exists desc w',
    get_llm_pair default_strategy (-3) fresh_world = Ok ((1%nat, 0%nat, desc), w').
Proof.
  assert (H : -3 < 0) by lia. split; [exact H|].
  destruct (proj1 (get_llm_pair_negative default_strategy (-3) fresh_world H))
    as (desc & w' & E & _).
  exists desc, w'. exact E.
Defined.

Lemma free_of_not_In (c : N) (s : pystr) : free_of c s = true -> ~ In c s.
Proof.
  unfold free_of. rewrite forallb_forall. intros H Hin.
  specialize (H c Hin). rewrite N.eqb_refl in H. discriminate.
Qed.

Lemma str_contains_single (c : N) (s : pystr) :
  str_contains [c] s = true <-> In c s.
Proof.
  rewrite str_contains_spec. split.
  - intros (pre & post & ->). apply in_or_app. right. left. reflexivity.
  - intros H. apply in_split in H as (pre & post & ->). exists pre, post.
    reflexivity.
Qed.

(** C7 (as amended): for every retry index [i >= 0] the description is the
    primary's display name with the label of the primary role, then the
    advisor's display name with the label of the advisor role, followed by
    the retry-index suffix exactly when [i > 0]. The display names are the
    Ollama model names of the configuration when the backend is "ollama"
    and "DeepSeek" and "MiniMax" otherwise. For [i > 0] the description
    contains the decimal text of [i]; at index 0 it is the names and labels
    alone, so it contains "0" exactly when one of the two display names
    does. *)
Theorem get_llm_pair_description self (i : Z) w :
  0 <= i ->
  let ollama := bool_decide (llm_backend (config self) = u "ollama") in
  let main := if ollama then ollama_main_model (config self) else u "DeepSeek" in
  let adv := if ollama then ollama_advisor_model (config self) else u "MiniMax" in
  exists primary advisor desc w',
    get_llm_pair self i w = Ok ((primary, advisor, desc), w') /\
    desc = (if Z.even i then main else adv)
           ++ u " (主) + "
           ++ (if Z.even i then adv else main)
           ++ u " (顾问)"
           ++ (if i >? 0 then u " [重试 " ++ str_of_int i ++ u "]" else []) /\
    ((u " [重试 " ++ str_of_int i ++ u "]") `suffix_of` desc <-> 0 < i) /\
    (0 < i -> str_contains (str_of_int i) desc = true) /\
    (i = 0 -> desc = main ++ u " (主) + " ++ adv ++ u " (顾问)") /\
    (i = 0 ->
     (str_contains (str_of_int i) desc = true
      <-> str_contains (str_of_int i) main = true
          \/ str_contains (str_of_int i) adv = true)).
Proof.
  intros Hi. cbv zeta.
  change (bool_decide (llm_backend (config self) = u "ollama"))
    with (is_ollama (config self)).
  change (if is_ollama (config self)
          then ollama_main_model (config self) else u "DeepSeek")
    with (main_name self).
  change (if is_ollama (config self)
          then ollama_advisor_model (config self) else u "MiniMax")
    with (advisor_name self).
  change (u " [重试 " ++ str_of_int i ++ u "]") with (retry_suffix i).
  destruct (parity_cases i) as [[He Hmod] | [Ho Hmod]].
  - eexists _, _, _, _. split; [apply (get_llm_pair_even _ _ _ Hmod)|].
    rewrite He.
    split; [unfold role_description; rewrite <- !app_assoc; reflexivity|].
    split; [|split; [|split]].
    + destruct (i >? 0) eqn:Hgt.
      * split; [lia|]. intros _. apply suffix_app_r. reflexivity.
      * rewrite app_nil_r. split; [|lia]. intros Hs.
        apply (last_suffix _ _ _ (last_retry_suffix i)) in Hs.
        rewrite last_role_description in Hs. discriminate.
    + intros Hpos. replace (i >? 0) with true by lia.
      apply str_contains_spec.
      exists (role_description (main_name self) (advisor_name self) ++ u " [重试 "),
             (u "]").
      unfold retry_suffix. rewrite <- app_assoc. reflexivity.
    + intros ->. cbn [Z.gtb Z.compare]. rewrite app_nil_r. reflexivity.
    + intros ->. cbn [Z.gtb Z.compare]. rewrite app_nil_r.
      change (str_of_int 0) with [48%N]. rewrite !str_contains_single.
      unfold role_description. rewrite !in_app_iff.
      assert (H1 : ~ In 48%N (u " (主) + "))
        by (apply free_of_not_In; reflexivity).
      assert (H2 : ~ In 48%N (u " (顾问)"))
        by (apply free_of_not_In; reflexivity).
      tauto.
  - assert (0 < i) as Hpos.
    { destruct (Z.eq_dec i 0) as [->|]; [discriminate | lia]. }
    assert (Z.even i = false) as He by (rewrite <- Z.negb_odd, Ho; reflexivity).
    eexists _, _, _, _. split; [apply (get_llm_pair_odd _ _ _ Hmod)|].
    rewrite He. replace (i >? 0) with true by lia.
    split; [unfold role_description; rewrite <- !app_assoc; reflexivity|].
    split; [|split; [|split]].
    + split; [intros _; exact Hpos|]. intros _. apply suffix_app_r. reflexivity.
    + intros _. apply str_contains_spec.
      exists (role_description (advisor_name self) (main_name self) ++ u " [重试 "),
             (u "]").
      unfold retry_suffix. rewrite <- app_assoc. reflexivity.
    + lia.
    + lia.
Qed.

Lemma get_llm_pair_description_witness :
  0 <= 2 /\
  exists primary advisor desc w',
    get_llm_pair qwen_strategy 2 fresh_world = Ok ((primary, advisor, desc), w') /\
    desc = u "qwen3:30b (主) + qwen3:latest (顾问) [重试 2]".
Proof.
  assert (H : 0 <= 2) by lia. split; [exact H|].
  destruct (get_llm_pair_description qwen_strategy 2 fresh_world H)
    as (p & a & desc & w' & E & D & _).
  exists p, a, desc, w'. split; [exact E|]. rewrite D. reflexivity.
Defined.

(** C7, the claim as it is written: with the Ollama main model
    "qwen3:30b" the description of index 0 contains the literal index,
    though the index is not greater than 0. *)
Lemma get_llm_pair_description_zero :
  exists desc,
    get_llm_pair qwen_strategy 0 fresh_world
    = Ok ((0%nat, 1%nat, desc), fresh_world) /\
    desc = u "qwen3:30b (主) + qwen3:latest (顾问)" /\
    str_contains (str_of_int 0) desc = true /\
    ~ 0 < 0.
Proof.
  eexists. split; [vm_compute; reflexivity|].
  split; [reflexivity|]. split; [vm_compute; reflexivity | lia].
Qed.

(** The retry indices 0 to 4 on a fresh strategy: main, advisor, main,
    advisor, main. *)
Example primary_of_first_five :
  map (fun i => match get_llm_pair default_strategy i constructed_world with
                | Ok (primary, _, _, _) => Some primary
                | Raise _ => None
                end) [0; 1; 2; 3; 4]
  = map Some [main_llm default_strategy; advisor_llm default_strategy;
              main_llm default_strategy; advisor_llm default_strategy;
              main_llm default_strategy].
Proof. reflexivity. Qed.

Example description_of_first_try :
  get_llm_pair default_strategy 0 fresh_world
  = Ok ((0%nat, 1%nat, u "DeepSeek (主) + MiniMax (顾问)"), fresh_world).
Proof. vm_compute. reflexivity. Qed.

Example description_of_first_retry :
  get_llm_pair default_strategy 1 fresh_world
  = Ok ((1%nat, 0%nat, u "MiniMax (主) + DeepSeek (顾问) [重试 1]"),
        {| heap := []; log := [u "[重试策略] 🔄 角色互换：MiniMax 作为主 Agent"] |}).
Proof. vm_compute. reflexivity. Qed.

(** ** Rendering of the history *)

Section FormatProperties.

Context {B : PyBuiltins}.
Local Open Scope string_scope.
Local Open Scope list_scope.

Lemma append_each_app line xs parts :
  append_each line xs parts = parts ++ map line xs.
Proof.
  unfold append_each. revert parts.
  induction xs as [|x xs IH]; intros parts; simpl.
  - symmetry. apply app_nil_r.
  - rewrite IH, <- app_assoc. reflexivity.
Qed.

Lemma py_iter_sequence v : is_sequence v = true -> py_iter v = Ok (seq_items v).
Proof. destruct v; simpl; intros H; try discriminate; reflexivity. Qed.

Lemma slice_then_iter n v :
  is_sequence v = true ->
  (py_slice_to n v ≫= py_iter) = Ok (take n (seq_items v)).
Proof.
  destruct v; simpl; intros H; try discriminate; try reflexivity.
  unfold mbind, result_bind. simpl. rewrite firstn_map. reflexivity.
Qed.

Lemma truthy_sequence v :
  falsy_or_sequence v = true -> py_truth v = true -> is_sequence v = true.
Proof.
  unfold falsy_or_sequence. intros H T. rewrite T in H. exact H.
Qed.

Lemma bullet_block_ok header line n seq parts :
  falsy_or_sequence seq = true ->
  bullet_block header line n seq parts = Ok (parts ++ block header line n seq).
Proof.
  intros H. unfold bullet_block, block, shown_bullets.
  destruct (py_truth seq) eqn:T.
  - pose proof (slice_then_iter n seq (truthy_sequence _ H T)) as E.
    unfold mbind, result_bind in *.
    destruct (py_slice_to n seq) as [shown|e]; [|discriminate].
    rewrite E. unfold mret, result_ret.
    rewrite append_each_app, <- app_assoc. reflexivity.
  - unfold mret, result_ret. rewrite app_nil_r. reflexivity.
Qed.

Lemma format_attempt_ok i attempt parts :
  attempt_renderable attempt = true ->
  format_attempt i attempt parts = Ok (parts ++ section i attempt).
Proof.
  unfold attempt_renderable. rewrite andb_true_iff. intros [Hf Hk].
  unfold format_attempt, section.
  rewrite (bullet_block_ok _ _ _ _ _ Hf). unfold mbind at 1, result_bind at 1.
  rewrite (bullet_block_ok _ _ _ _ _ Hk). unfold mbind, result_bind.
  unfold mret, result_ret. f_equal.
  rewrite <- !app_assoc. reflexivity.
Qed.

Lemma format_loop_ok i history parts :
  forallb attempt_renderable history = true ->
  format_loop i history parts = Ok (parts ++ concat (sections_from i history)).
Proof.
  revert i parts. induction history as [|attempt rest IH]; intros i parts H.
  - simpl. rewrite app_nil_r. reflexivity.
  - simpl in H. apply andb_true_iff in H as [Ha Hr].
    simpl. rewrite (format_attempt_ok _ _ _ Ha).
    unfold mbind, result_bind. rewrite (IH _ _ Hr), <- app_assoc. reflexivity.
Qed.

Lemma format_parts_ok history :
  forallb attempt_renderable history = true ->
  format_parts history
  = Ok ([history_header] ++ concat (sections_from 1 history) ++ [closing_note]).
Proof.
  intros H. unfold format_parts. rewrite (format_loop_ok _ _ _ H).
  unfold mbind, result_bind, mret, result_ret.
  rewrite <- app_assoc. reflexivity.
Qed.

Lemma format_attempt_history_ok history :
  history <> [] ->
  forallb attempt_renderable history = true ->
  format_attempt_history history
  = Ok (history_header ++ sections_text history ++ closing_note).
Proof.
  intros Hne H. unfold format_attempt_history.
  destruct history as [|a rest]; [congruence|].
  rewrite (format_parts_ok _ H). unfold mbind, result_bind, mret, result_ret.
  unfold sections_text. f_equal.
  rewrite !concat_app. cbn [concat]. rewrite !app_nil_r. reflexivity.
Qed.

Lemma sections_from_lookup i history k attempt :
  history !! k = Some attempt ->
  sections_from i history !! k = Some (section (i + Z.of_nat k) attempt).
Proof.
  revert i k. induction history as [|a rest IH]; intros i k H; [discriminate|].
  destruct k as [|k]; simpl in *.
  - injection H as ->. rewrite Z.add_0_r. reflexivity.
  - rewrite (IH _ _ H). do 2 f_equal. lia.
Qed.

(** Every part of a section starts with [#], [-], a space or a newline,
    so none is the closing note, which starts with [*]. *)
Ltac head_of_literal :=
  match goal with
  | |- context [u ?s ++ _] =>
    let l := eval vm_compute in (u s) in change (u s) with l
  end.

Lemma block_heads header line n seq :
  head header <> Some 42%N ->
  (forall x, head (line x) <> Some 42%N) ->
  Forall (fun p : pystr => head p <> Some 42%N) (block header line n seq).
Proof.
  intros Hh Hl. unfold block, shown_bullets.
  destruct (py_truth seq); [|constructor].
  constructor; [exact Hh|]. apply Forall_map, Forall_forall. intros x _. apply Hl.
Qed.

Lemma section_heads i attempt :
  Forall (fun p : pystr => head p <> Some 42%N) (section i attempt).
Proof.
  unfold section. repeat (apply Forall_app; split).
  - repeat constructor.
    + unfold attempt_heading. head_of_literal. discriminate.
    + unfold attempt_count_line. head_of_literal. discriminate.
  - apply block_heads; [|intros x; unfold failed_bullet; head_of_literal];
      discriminate.
  - apply block_heads; [|intros x; unfold finding_bullet; head_of_literal];
      discriminate.
  - repeat constructor. discriminate.
Qed.

Lemma sections_heads i history :
  Forall (fun p : pystr => head p <> Some 42%N) (concat (sections_from i history)).
Proof.
  revert i. induction history as [|a rest IH]; intros i;
    cbn [sections_from concat]; [constructor|].
  apply Forall_app. split; [apply section_heads | apply IH].
Qed.

Lemma closing_note_not_before history :
  ~ In closing_note (history_header :: concat (sections_from 1 history)).
Proof.
  intros [H | H].
  - discriminate H.
  - pose proof (sections_heads 1 history) as F.
    rewrite Forall_forall in F. apply list_elem_of_In in H.
    apply (F _ H). reflexivity.
Qed.

Lemma count_occ_drop_le (c : N) (k : nat) (s : pystr) :
  (count_occ N.eq_dec (drop k s) c <= count_occ N.eq_dec s c)%nat.
Proof.
  induction k as [|k IH]; [rewrite drop_0; lia|].
  pose proof (count_occ_drop_S c k s). lia.
Qed.

Lemma free_of_count (c : N) (s : pystr) :
  free_of c s = true -> count_occ N.eq_dec s c = 0%nat.
Proof.
  unfold free_of. induction s as [|x s IH]; simpl; [reflexivity|].
  rewrite andb_true_iff, negb_true_iff, N.eqb_neq. intros [Hx Hs].
  destruct (N.eq_dec x c); [contradiction | apply IH, Hs].
Qed.

(** The text of the note occurs once in a block whose sections are free of
    the warning sign U+26A0. *)
Lemma closing_note_once (body : pystr) :
  free_of 9888 body = true ->
  occurrences closing_note (history_header ++ body ++ closing_note) = 1%nat.
Proof.
  intros Hfree.
  assert (occurrences closing_note (history_header ++ body ++ closing_note) <= 1)%nat.
  { etransitivity; [apply (occurrences_le_count 9888 2); reflexivity|].
    etransitivity; [apply count_occ_drop_le|].
    rewrite !count_occ_app, (free_of_count _ _ Hfree).
    apply Nat.eq_le_incl. reflexivity. }
  pose proof (occurrences_app_ge closing_note (history_header ++ body) closing_note) as Hge.
  rewrite <- app_assoc in Hge.
  pose proof (occurrences_self_pos closing_note). lia.
Qed.

(** C4 (as amended): on the empty history the formatter returns the empty
    string, with no header. On a non-empty history of renderable summaries
    it returns the header, the per-attempt sections and then the closing
    note: the note is the last part, no earlier part is the note, and the
    text ends with it. When the sections are free of the warning sign the
    text of the note occurs exactly once in the block. *)
Theorem format_closing_note history :
  history <> [] ->
  forallb attempt_renderable history = true ->
  (format_attempt_history [] = Ok []) /\
  (format_parts history
   = Ok (history_header :: concat (sections_from 1 history) ++ [closing_note])) /\
  (~ In closing_note (history_header :: concat (sections_from 1 history))) /\
  (format_attempt_history history
   = Ok (history_header ++ sections_text history ++ closing_note)) /\
  (1 <= occurrences closing_note
          (history_header ++ sections_text history ++ closing_note))%nat /\
  (free_of 9888 (sections_text history) = true ->
   occurrences closing_note
     (history_header ++ sections_text history ++ closing_note) = 1%nat).
Proof.
  intros Hne H. split; [reflexivity|].
  split; [apply (format_parts_ok _ H)|].
  split; [apply closing_note_not_before|].
  split; [apply (format_attempt_history_ok _ Hne H)|].
  split; [|apply closing_note_once].
  pose proof (occurrences_app_ge closing_note
                (history_header ++ sections_text history) closing_note) as Hge.
  rewrite <- app_assoc in Hge.
  pose proof (occurrences_self_pos closing_note). lia.
Qed.

Lemma py_truth_items v :
  falsy_or_sequence v = true ->
  py_truth v = negb (Nat.eqb (length (seq_items v)) 0).
Proof.
  destruct v as [| b | n | s | xs | r a]; simpl; try reflexivity.
  - destruct b; [discriminate | reflexivity].
  - unfold falsy_or_sequence. simpl. rewrite orb_false_r, negb_involutive.
    intros H. rewrite H. reflexivity.
  - rewrite length_map. reflexivity.
  - discriminate.
Qed.

Lemma block_by_items header line n v :
  falsy_or_sequence v = true ->
  block header line n v
  = if Nat.eqb (length (seq_items v)) 0 then []
    else header :: shown_bullets line n v.
Proof.
  intros H. unfold block. rewrite (py_truth_items _ H).
  destruct (Nat.eqb _ 0); reflexivity.
Qed.

Lemma renderable_lookup history k attempt :
  forallb attempt_renderable history = true ->
  history !! k = Some attempt ->
  attempt_renderable attempt = true.
Proof.
  revert k. induction history as [|a rest IH]; intros k H E; [discriminate|].
  simpl in H. apply andb_true_iff in H as [Ha Hr].
  destruct k as [|k]; simpl in E; [injection E as <-; exact Ha | eauto].
Qed.

Lemma dict_get_missing (d : gmap string pyval) key dflt :
  d !! key = None -> dict_get d key dflt = dflt.
Proof. unfold dict_get. intros ->. reflexivity. Qed.

Lemma dict_get_present (d : gmap string pyval) key dflt v :
  d !! key = Some v -> dict_get d key dflt = v.
Proof. unfold dict_get. intros ->. reflexivity. Qed.

(** *** Counting bullet markers in the text *)

Local Notation "'cnt' c s" := (count_occ N.eq_dec s c)
  (at level 10, c at level 9, s at level 9).

Lemma starts_with_app kw s t :
  starts_with kw s = true -> starts_with kw (s ++ t) = true.
Proof.
  rewrite !starts_with_spec. intros [post ->]. exists (post ++ t).
  symmetry. apply app_assoc.
Qed.

Lemma occurrences_pos kw s : starts_with kw s = true -> (1 <= occurrences kw s)%nat.
Proof. intros H. destruct s; simpl in *; rewrite H; lia. Qed.

Lemma occurrences_app_sum kw a b :
  kw <> [] ->
  (occurrences kw a + occurrences kw b <= occurrences kw (a ++ b))%nat.
Proof.
  intros Hkw. induction a as [|x a IH].
  - destruct kw as [|c kw]; [congruence|]. simpl. lia.
  - change ((x :: a) ++ b) with (x :: (a ++ b)).
    change (occurrences kw (x :: a))
      with ((if starts_with kw (x :: a) then 1 else 0) + occurrences kw a)%nat.
    change (occurrences kw (x :: (a ++ b)))
      with ((if starts_with kw (x :: (a ++ b)) then 1 else 0)
            + occurrences kw (a ++ b))%nat.
    destruct (starts_with kw (x :: a)) eqn:E.
    + pose proof (starts_with_app kw (x :: a) b E) as E'.
      change ((x :: a) ++ b) with (x :: (a ++ b)) in E'. rewrite E'. lia.
    + destruct (starts_with kw (x :: (a ++ b))); lia.
Qed.

Lemma occurrences_le_total (c : N) (k : nat) (kw s : pystr) :
  kw !! k = Some c -> (occurrences kw s <= cnt c s)%nat.
Proof.
  intros Hk. etransitivity; [apply (occurrences_le_count c k), Hk|].
  apply count_occ_drop_le.
Qed.

Lemma str_of_int_count (c : N) (i : Z) :
  (256 <= c)%N -> cnt c (str_of_int i) = 0%nat.
Proof.
  intros Hc. unfold str_of_int.
  induction (list_ascii_of_string (NilZero.string_of_int (Z.to_int i)))
    as [|a l IH]; [reflexivity|].
  cbn [map count_occ]. pose proof (N_ascii_bounded a).
  destruct (N.eq_dec (N_of_ascii a) c); [lia | exact IH].
Qed.

Lemma count_concat_zero (c : N) (parts : list pystr) :
  Forall (fun p => cnt c p = 0%nat) parts -> cnt c (concat parts) = 0%nat.
Proof.
  induction 1 as [|p parts Hp _ IH]; [reflexivity|].
  cbn [concat]. rewrite count_occ_app, Hp, IH. reflexivity.
Qed.

Lemma bullets_count (c : N) (kw : pystr) (texts : list pystr) :
  cnt c kw = 1%nat -> c <> 10%N ->
  Forall (fun t => cnt c t = 0%nat) texts ->
  cnt c (concat (map (fun t => kw ++ t ++ nl) texts)) = length texts.
Proof.
  intros Hkw Hnl. induction 1 as [|t texts Ht _ IH]; [reflexivity|].
  cbn [map concat length]. rewrite !count_occ_app, Hkw, Ht, IH.
  unfold nl. cbn [count_occ]. destruct (N.eq_dec 10%N c); [congruence | lia].
Qed.

Lemma bullets_occurrences (kw : pystr) (texts : list pystr) :
  kw <> [] ->
  (length texts
   <= occurrences kw (concat (map (fun t => kw ++ t ++ nl) texts)))%nat.
Proof.
  intros Hkw. induction texts as [|t texts IH]; [cbn; lia|].
  cbn [map concat length].
  pose proof (occurrences_app_sum kw (kw ++ t ++ nl)
                (concat (map (fun t => kw ++ t ++ nl) texts)) Hkw).
  pose proof (occurrences_pos kw _ (starts_with_refl kw (t ++ nl))).
  lia.
Qed.

(** Bullets framed by text without the marker's sign: the marker occurs
    once for each bullet. *)
Lemma framed_occurrences (kw : pystr) (c : N) (k : nat)
      (pre : pystr) (texts : list pystr) (post : pystr) :
  kw !! k = Some c -> cnt c kw = 1%nat -> c <> 10%N ->
  cnt c pre = 0%nat -> cnt c post = 0%nat ->
  Forall (fun t => cnt c t = 0%nat) texts ->
  occurrences kw (pre ++ concat (map (fun t => kw ++ t ++ nl) texts) ++ post)
  = length texts.
Proof.
  intros Hk Hkw Hnl Hpre Hpost Htexts.
  assert (Hne : kw <> []) by (destruct kw; [discriminate | congruence]).
  apply Nat.le_antisymm.
  - etransitivity; [apply (occurrences_le_total c k), Hk|].
    rewrite !count_occ_app, Hpre, Hpost, (bullets_count _ _ _ Hkw Hnl Htexts).
    rewrite Nat.add_0_l, Nat.add_0_r. apply Nat.le_refl.
  - pose proof (occurrences_app_sum kw pre
                  (concat (map (fun t => kw ++ t ++ nl) texts) ++ post) Hne).
    pose proof (occurrences_app_sum kw
                  (concat (map (fun t => kw ++ t ++ nl) texts)) post Hne).
    pose proof (bullets_occurrences kw texts Hne). lia.
Qed.

Lemma block_text header line n v :
  falsy_or_sequence v = true ->
  concat (block header line n v)
  = (if Nat.eqb (length (seq_items v)) 0 then [] else header)
    ++ concat (map line (take n (seq_items v))).
Proof.
  intros H. rewrite (block_by_items _ _ _ _ H). unfold shown_bullets.
  destruct (seq_items v) as [|x xs].
  - cbn [length Nat.eqb]. rewrite take_nil. reflexivity.
  - cbn [length Nat.eqb]. reflexivity.
Qed.

Lemma marker_sign_cases (c : N) :
  c = 10060%N \/ c = 128161%N -> (256 <= c)%N /\ c <> 10%N.
Proof. intros [-> | ->]; split; lia. Qed.

Lemma marker_free_texts c attempt :
  c = 10060%N \/ c = 128161%N ->
  marker_free attempt = true ->
  Forall (fun t => cnt c t = 0%nat) (shown_texts attempt).
Proof.
  intros Hc H. unfold marker_free in H. rewrite forallb_forall in H.
  apply Forall_forall. intros t Ht. apply list_elem_of_In in Ht.
  specialize (H t Ht). apply andb_true_iff in H as [H1 H2].
  destruct Hc as [-> | ->]; apply free_of_count; assumption.
Qed.

(** The markers in the text of one section. *)
Lemma section_markers i attempt :
  attempt_renderable attempt = true ->
  marker_free attempt = true ->
  occurrences (u "  - ❌ ") (concat (section i attempt))
  = length (take 10 (seq_items (dict_get attempt "failed_methods" (PyList [])))) /\
  occurrences (u "  - 💡 ") (concat (section i attempt))
  = length (take 5 (seq_items (dict_get attempt "key_findings" (PyList [])))).
Proof.
  intros Hr Hfree. unfold attempt_renderable in Hr.
  apply andb_true_iff in Hr as [Hf Hk].
  assert (Htext : concat (section i attempt)
    = (attempt_heading i (dict_get attempt "strategy" (PyStr (u "未知策略")))
       ++ attempt_count_line (dict_get attempt "attempts" (PyInt 0))
       ++ (if Nat.eqb (length (seq_items
                 (dict_get attempt "failed_methods" (PyList [])))) 0
           then [] else failed_header))
      ++ concat (map (fun t => u "  - ❌ " ++ t ++ nl)
                     (map py_str (take 10 (seq_items
                        (dict_get attempt "failed_methods" (PyList []))))))
      ++ (if Nat.eqb (length (seq_items
                (dict_get attempt "key_findings" (PyList [])))) 0
          then [] else findings_header)
      ++ concat (map (fun t => u "  - 💡 " ++ t ++ nl)
                     (map py_str (take 5 (seq_items
                        (dict_get attempt "key_findings" (PyList []))))))
      ++ nl).
  { unfold section. rewrite !concat_app, (block_text _ _ _ _ Hf),
      (block_text _ _ _ _ Hk). cbn [concat]. rewrite !app_nil_r, !map_map.
    rewrite <- !app_assoc. reflexivity. }
  assert (Hall : forall c, c = 10060%N \/ c = 128161%N ->
            cnt c (attempt_heading i
                     (dict_get attempt "strategy" (PyStr (u "未知策略")))) = 0%nat /\
            cnt c (attempt_count_line
                     (dict_get attempt "attempts" (PyInt 0))) = 0%nat /\
            Forall (fun t => cnt c t = 0%nat)
              (map py_str (take 10 (seq_items
                 (dict_get attempt "failed_methods" (PyList []))))) /\
            Forall (fun t => cnt c t = 0%nat)
              (map py_str (take 5 (seq_items
                 (dict_get attempt "key_findings" (PyList [])))))).
  { intros c Hc. pose proof (marker_free_texts c attempt Hc Hfree) as F.
    unfold shown_texts in F. apply Forall_app in F as [F1 F2].
    apply Forall_app in F2 as [F2 F3].
    apply Forall_cons in F1 as [Hs F1]. apply Forall_cons in F1 as [Hn _].
    destruct (marker_sign_cases c Hc) as [Hbig _].
    unfold attempt_heading, attempt_count_line.
    rewrite !count_occ_app, Hs, Hn, (str_of_int_count c i Hbig).
    repeat split; try assumption;
      destruct Hc as [-> | ->]; reflexivity. }
  rewrite Htext. split.
  - destruct (Hall 10060%N (or_introl eq_refl)) as (Hh & Hc & HF & HK).
    rewrite <- (length_map py_str (take 10 _)).
    apply (framed_occurrences _ 10060%N 4%nat);
      [reflexivity | reflexivity | discriminate | | | exact HF].
    + rewrite !count_occ_app, Hh, Hc.
      destruct (Nat.eqb (length (seq_items
                  (dict_get attempt "failed_methods" (PyList [])))) 0);
        reflexivity.
    + rewrite !count_occ_app.
      rewrite (count_concat_zero 10060%N
                 (map (fun t => u "  - 💡 " ++ t ++ nl) _)).
      * destruct (Nat.eqb (length (seq_items
                    (dict_get attempt "key_findings" (PyList [])))) 0);
          reflexivity.
      * apply Forall_map. eapply Forall_impl; [exact HK|].
        cbn beta. intros t Ht. rewrite !count_occ_app, Ht. reflexivity.
  - destruct (Hall 128161%N (or_intror eq_refl)) as (Hh & Hc & HF & HK).
    rewrite <- (length_map py_str (take 5 _)).
    rewrite !(app_assoc _ _ (concat (map (fun t => u "  - 💡 " ++ t ++ nl) _) ++ nl)).
    apply (framed_occurrences _ 128161%N 4%nat);
      [reflexivity | reflexivity | discriminate | | reflexivity | exact HK].
    rewrite !count_occ_app, Hh, Hc.
    rewrite (count_concat_zero 128161%N
               (map (fun t => u "  - ❌ " ++ t ++ nl) _)).
    + destruct (Nat.eqb (length (seq_items
                  (dict_get attempt "failed_methods" (PyList [])))) 0),
        (Nat.eqb (length (seq_items
                  (dict_get attempt "key_findings" (PyList [])))) 0);
        reflexivity.
    + apply Forall_map. eapply Forall_impl; [exact HF|].
      cbn beta. intros t Ht. rewrite !count_occ_app, Ht. reflexivity.
Qed.

(** C5 (as amended): for a non-empty history of renderable summaries the
    formatter returns the heading, one section per summary and the closing
    note. The section of each summary is its heading line, its count line,
    then, only when the sequence is non-empty, the failed-methods header
    with one bullet entry for each of the first 10 failed methods and the
    key-findings header with one bullet entry for each of the first 5 key
    findings, then an empty line: at most 10 and at most 5 entries, and
    exactly 10 for a summary with 12 failed methods. In the text of the
    section the failed-method markers and the key-finding markers are as
    many as these entries whenever the texts that the section shows carry
    neither U+274C nor U+1F4A1. *)
Theorem format_section_bullets history :
  history <> [] ->
  forallb attempt_renderable history = true ->
  (format_attempt_history history
   = Ok (history_header ++ sections_text history ++ closing_note)) /\
  (format_parts history
   = Ok (history_header :: concat (sections_from 1 history) ++ [closing_note])) /\
  forall k attempt, history !! k = Some attempt ->
    let failed_methods := dict_get attempt "failed_methods" (PyList []) in
    let key_findings := dict_get attempt "key_findings" (PyList []) in
    let failed_entries :=
      map (fun method => u "  - ❌ " ++ py_str method ++ nl)
          (take 10 (seq_items failed_methods)) in
    let finding_entries :=
      map (fun finding => u "  - 💡 " ++ py_str finding ++ nl)
          (take 5 (seq_items key_findings)) in
    let section_parts :=
      [attempt_heading (1 + Z.of_nat k)
         (dict_get attempt "strategy" (PyStr (u "未知策略")));
       attempt_count_line (dict_get attempt "attempts" (PyInt 0))]
      ++ (if Nat.eqb (length (seq_items failed_methods)) 0 then []
          else failed_header :: failed_entries)
      ++ (if Nat.eqb (length (seq_items key_findings)) 0 then []
          else findings_header :: finding_entries)
      ++ [nl] in
    (sections_from 1 history !! k = Some section_parts) /\
    (length failed_entries <= 10)%nat /\
    (length finding_entries <= 5)%nat /\
    (length (seq_items failed_methods) = 12%nat ->
     length failed_entries = 10%nat) /\
    (marker_free attempt = true ->
     occurrences (u "  - ❌ ") (concat section_parts) = length failed_entries /\
     occurrences (u "  - 💡 ") (concat section_parts) = length finding_entries).
Proof.
  intros Hne H. split; [apply (format_attempt_history_ok _ Hne H)|].
  split; [apply (format_parts_ok _ H)|].
  intros k attempt Hk.
  pose proof (renderable_lookup _ _ _ H Hk) as Ha.
  pose proof Ha as Ha'.
  unfold attempt_renderable in Ha. apply andb_true_iff in Ha as [Hf Hkf].
  cbv zeta.
  assert (Hsec : section (1 + Z.of_nat k) attempt
    = [attempt_heading (1 + Z.of_nat k)
         (dict_get attempt "strategy" (PyStr (u "未知策略")));
       attempt_count_line (dict_get attempt "attempts" (PyInt 0))]
      ++ (if Nat.eqb (length (seq_items
                (dict_get attempt "failed_methods" (PyList [])))) 0 then []
          else failed_header
               :: map (fun method => u "  - ❌ " ++ py_str method ++ nl)
                      (take 10 (seq_items
                         (dict_get attempt "failed_methods" (PyList [])))))
      ++ (if Nat.eqb (length (seq_items
                (dict_get attempt "key_findings" (PyList [])))) 0 then []
          else findings_header
               :: map (fun finding => u "  - 💡 " ++ py_str finding ++ nl)
                      (take 5 (seq_items
                         (dict_get attempt "key_findings" (PyList [])))))
      ++ [nl]).
  { unfold section.
    rewrite (block_by_items _ _ _ _ Hf), (block_by_items _ _ _ _ Hkf).
    reflexivity. }
  split; [|split; [|split; [|split]]].
  - rewrite (sections_from_lookup _ _ _ _ Hk), Hsec. reflexivity.
  - rewrite length_map, length_take. lia.
  - rewrite length_map, length_take. lia.
  - intros E. rewrite length_map, length_take, E. reflexivity.
  - intros Hfree. rewrite <- Hsec, !length_map.
    apply (section_markers _ _ Ha' Hfree).
Qed.


End FormatProperties.

Lemma format_closing_note_witness :
  twelve_history <> [] /\
  forallb attempt_renderable twelve_history = true /\
  occurrences closing_note
    (history_header ++ sections_text (B := ascii_builtins) twelve_history
     ++ closing_note) = 1%nat.
Proof.
  assert (H1 : twelve_history <> []) by discriminate.
  assert (H2 : forallb attempt_renderable twelve_history
               = true) by reflexivity.
  split; [exact H1 | split; [exact H2|]].
  apply (format_closing_note (B := ascii_builtins) twelve_history H1 H2).
  vm_compute. reflexivity.
Defined.

(** C4, the claim as it is written: a summary whose strategy label is the
    text of the closing note makes the note occur twice in the block,
    whatever the builtins. *)
Lemma format_closing_note_twice :
  exists text,
    (forall B : PyBuiltins, format_attempt_history (B := B) echo_history = Ok text) /\
    occurrences closing_note text = 2%nat.
Proof.
  eexists. split.
  - intros B. vm_compute. reflexivity.
  - vm_compute. reflexivity.
Qed.

Lemma format_section_bullets_witness :
  twelve_history <> [] /\
  forallb attempt_renderable twelve_history = true /\
  format_attempt_history (B := ascii_builtins) twelve_history
  = Ok (history_header ++ sections_text (B := ascii_builtins) twelve_history
        ++ closing_note) /\
  occurrences (u "  - ❌ ")
    (history_header ++ sections_text (B := ascii_builtins) twelve_history
     ++ closing_note) = 10%nat.
Proof.
  assert (H1 : twelve_history <> []) by discriminate.
  assert (H2 : forallb attempt_renderable twelve_history = true) by reflexivity.
  split; [exact H1 | split; [exact H2|]].
  split;
    [exact (proj1 (format_section_bullets (B := ascii_builtins)
                     twelve_history H1 H2))|].
  vm_compute. reflexivity.
Defined.

(** C5, the claim as it is written: the block for a summary whose twelve
    failed methods each quote a bullet line shows twenty failed-method
    bullet markers, whatever the builtins. *)
Lemma format_section_bullets_twenty :
  exists text,
    (forall B : PyBuiltins,
        format_attempt_history (B := B) [bulleted_failed] = Ok text) /\
    occurrences (u "  - ❌ ") text = 20%nat /\
    ~ (occurrences (u "  - ❌ ") text <= 10)%nat.
Proof.
  eexists. split; [intros B; vm_compute; reflexivity|].
  split; [vm_compute; reflexivity|]. vm_compute. lia.
Qed.


(** The block for a history of one summary without any field. *)
Example format_of_empty_summary :
  format_attempt_history (B := ascii_builtins) [∅]
  = Ok (u "## 📜 历史尝试记录（请避免重复这些失败的方法）
### 尝试 1：未知策略
- **尝试次数**: 0

**⚠️ 重要提示**: 上述方法均已失败，请尝试完全不同的攻击角度！
").
Proof. vm_compute. reflexivity. Qed.

(** The block for one summary with a failed method and a key finding. *)
Example format_of_one_summary :
  format_attempt_history (B := ascii_builtins)
    [<["strategy" := PyStr (u "DeepSeek (主) + MiniMax (顾问)")]>
     (<["attempts" := PyInt 3]>
     (<["failed_methods" := PyList [PyStr (u "sqlmap failed")]]>
     (<["key_findings" := PyList [PyStr (u "port 8080 open")]]> ∅)))]
  = Ok (u "## 📜 历史尝试记录（请避免重复这些失败的方法）
### 尝试 1：DeepSeek (主) + MiniMax (顾问)
- **尝试次数**: 3
- **已失败的方法**:
  - ❌ sqlmap failed
- **关键发现**:
  - 💡 port 8080 open

**⚠️ 重要提示**: 上述方法均已失败，请尝试完全不同的攻击角度！
").
Proof. vm_compute. reflexivity. Qed.

(** ** Summaries of attempts *)

Section ExtractProperties.

Context {B : PyBuiltins}.
Local Open Scope string_scope.
Local Open Scope list_scope.

Lemma foldl_collect acc actions :
  foldl (fun failed_methods action =>
           if is_failure action
           then failed_methods ++ [PyStr (py_str action)]
           else failed_methods) acc actions
  = acc ++ rendered (List.filter is_failure actions).
Proof.
  revert acc. induction actions as [|a actions IH]; intros acc; simpl.
  - symmetry. apply app_nil_r.
  - rewrite IH. destruct (is_failure a); [|reflexivity].
    rewrite <- app_assoc. reflexivity.
Qed.

Lemma collect_failed_filter actions :
  collect_failed actions = rendered (List.filter is_failure actions).
Proof. unfold collect_failed. apply foldl_collect. Qed.

Lemma collect_failed_app xs ys :
  collect_failed (xs ++ ys) = collect_failed xs ++ collect_failed ys.
Proof.
  rewrite !collect_failed_filter, List.filter_app. unfold rendered.
  apply map_app.
Qed.

Lemma items_of_falsy v :
  falsy_or_sequence v = true -> py_truth v = false -> seq_items v = [].
Proof.
  intros H T. rewrite (py_truth_items _ H) in T.
  apply negb_false_iff, Nat.eqb_eq in T. destruct (seq_items v); [reflexivity|].
  discriminate.
Qed.

(** On a well-shaped raw result the summary is built, from these values. *)
Lemma extract_ok final_state strategy :
  state_well_shaped final_state = true ->
  extract_attempt_summary final_state strategy
  = Ok (summary_dict strategy
          (Z.of_nat (length (List.filter has_tool_calls
                                         (message_sequence final_state))))
          (rendered (List.filter is_failure (action_log final_state)))
          (rendered (discovered_facts final_state))
          (dict_get final_state "start_time" PyNone)).
Proof.
  unfold state_well_shaped. rewrite !andb_true_iff. intros [[Ha Hm] Hk].
  unfold extract_attempt_summary, message_sequence, action_log, discovered_facts.
  rewrite (py_iter_sequence _ Ha). unfold mbind at 1, result_bind at 1.
  rewrite (py_iter_sequence _ Hm). unfold mbind at 1, result_bind at 1.
  rewrite collect_failed_filter.
  destruct (py_truth (dict_get final_state "potential_vulnerabilities" (PyList [])))
    eqn:T.
  - rewrite (py_iter_sequence _ (truthy_sequence _ Hk T)). reflexivity.
  - rewrite (items_of_falsy _ Hk T). reflexivity.
Qed.

(** C2 (as amended): on a well-shaped raw result the summarizer returns
    a summary whose failed methods are all the qualifying entries of the
    action log and whose key findings are all the discovered facts, one
    for one: their numbers are those present in the raw result, with no
    bound. *)
Theorem extract_keeps_every_entry final_state strategy :
  state_well_shaped final_state = true ->
  exists summary failed_methods key_findings,
    extract_attempt_summary final_state strategy = Ok summary /\
    summary !! "failed_methods" = Some (PyList failed_methods) /\
    summary !! "key_findings" = Some (PyList key_findings) /\
    failed_methods
    = map (fun action => PyStr (py_str action))
          (List.filter is_failure (action_log final_state)) /\
    key_findings
    = map (fun v => PyStr (py_str v)) (discovered_facts final_state) /\
    length failed_methods
    = length (List.filter is_failure (action_log final_state)) /\
    length key_findings = length (discovered_facts final_state).
Proof.
  intros H. eexists _, _, _. split; [apply (extract_ok _ _ H)|].
  repeat split; unfold rendered; apply length_map.
Qed.

Lemma is_failure_spec action :
  is_failure action = true <->
  exists keyword,
    In keyword [u "失败"; u "错误"; u "error"; u "failed"] /\
    exists pre post, str_lower (py_str action) = pre ++ keyword ++ post.
Proof.
  unfold is_failure. rewrite existsb_exists. unfold failure_keywords.
  split; intros [kw [Hin Hc]]; exists kw; (split; [exact Hin|]);
    apply str_contains_spec; exact Hc.
Qed.

Lemma is_failure_plain (s : pystr) :
  lower_on_plain B ->
  forallb plain_cp s = true ->
  is_failure (PyStr s)
  = existsb (fun keyword => str_contains keyword (map ascii_lower_cp s))
            failure_keywords.
Proof.
  intros Hlower Hs. unfold is_failure. simpl py_str.
  rewrite (Hlower s Hs). reflexivity.
Qed.

(** C3: the failed methods of the summary are the string renderings of
    the action-log entries classified as failed, in the order of the log
    and with repetitions kept; an entry is classified as failed exactly
    when its lowercased string rendering contains one of the four
    keywords; for the log of the scenario the result is its second and
    third entry. *)
Theorem failed_methods_by_keyword final_state strategy :
  lower_on_plain B ->
  state_well_shaped final_state = true ->
  (exists summary,
      extract_attempt_summary final_state strategy = Ok summary /\
      summary !! "failed_methods"
      = Some (PyList (map (fun action => PyStr (py_str action))
                          (List.filter is_failure (action_log final_state))))) /\
  (forall action,
      is_failure action = true <->
      exists keyword,
        In keyword [u "失败"; u "错误"; u "error"; u "failed"] /\
        exists pre post, str_lower (py_str action) = pre ++ keyword ++ post) /\
  (forall action, collect_failed [action]
                  = if is_failure action then [PyStr (py_str action)] else []) /\
  (forall xs ys, collect_failed (xs ++ ys) = collect_failed xs ++ collect_failed ys) /\
  (exists summary,
      extract_attempt_summary scenario_state strategy = Ok summary /\
      summary !! "failed_methods"
      = Some (PyList [PyStr (u "tool call failed: timeout");
                      PyStr (u "错误: invalid input")])).
Proof.
  intros Hlower H. split; [|split; [|split; [|split]]].
  - eexists. split; [apply (extract_ok _ _ H)|]. reflexivity.
  - apply is_failure_spec.
  - intros action. unfold collect_failed. simpl.
    destruct (is_failure action); reflexivity.
  - apply collect_failed_app.
  - eexists. split; [apply extract_ok; reflexivity|].
    change (action_log scenario_state) with scenario_log.
    unfold scenario_log. cbn [List.filter].
    rewrite !(is_failure_plain _ Hlower) by reflexivity.
    reflexivity.
Qed.

Lemma has_tool_calls_spec m :
  has_tool_calls m = true <->
  exists tool_calls,
    py_getattr m "tool_calls" = Some tool_calls /\ py_truth tool_calls = true.
Proof.
  unfold has_tool_calls. destruct (py_getattr m "tool_calls") as [tc|].
  - split; [eauto | intros [tc' [E T]]; congruence].
  - split; [discriminate | intros [tc' [E T]]; discriminate].
Qed.

(** C6: the attempt count of the summary is the number of messages of the
    raw result's message sequence that have a [tool_calls] attribute whose
    value is non-empty (truthy). *)
Theorem attempts_counts_tool_calls final_state strategy :
  state_well_shaped final_state = true ->
  exists summary,
    extract_attempt_summary final_state strategy = Ok summary /\
    summary !! "attempts"
    = Some (PyInt (Z.of_nat (length (List.filter has_tool_calls
                                       (message_sequence final_state))))) /\
    forall m,
      has_tool_calls m = true <->
      exists tool_calls,
        py_getattr m "tool_calls" = Some tool_calls /\
        py_truth tool_calls = true.
Proof.
  intros H. eexists. split; [apply (extract_ok _ _ H)|].
  split; [reflexivity | apply has_tool_calls_spec].
Qed.

(** C8: the summarizer does not raise on absent fields. With no field at
    all it returns the summary with no failed methods, count 0, no key
    findings and the absent timestamp; on any raw result whose present
    fields are well shaped it returns, and each absent field gives its
    default: an absent action log no failed methods, absent messages the
    count 0, absent discovered facts no key findings, an absent start
    time the absent value [None]. *)
Theorem extract_absent_fields final_state strategy :
  state_well_shaped final_state = true ->
  (extract_attempt_summary ∅ strategy
   = Ok (summary_dict strategy 0 [] [] PyNone)) /\
  exists summary,
    extract_attempt_summary final_state strategy = Ok summary /\
    summary !! "strategy" = Some (PyStr strategy) /\
    (final_state !! "action_history" = None ->
     summary !! "failed_methods" = Some (PyList [])) /\
    (final_state !! "messages" = None ->
     summary !! "attempts" = Some (PyInt 0)) /\
    (final_state !! "potential_vulnerabilities" = None ->
     summary !! "key_findings" = Some (PyList [])) /\
    (final_state !! "start_time" = None ->
     summary !! "timestamp" = Some PyNone) /\
    (forall t, final_state !! "start_time" = Some t ->
               summary !! "timestamp" = Some t).
Proof.
  intros H. split; [reflexivity|].
  eexists. split; [apply (extract_ok _ _ H)|].
  split; [reflexivity|].
  unfold action_log, message_sequence, discovered_facts.
  repeat split.
  - intros E. rewrite (dict_get_missing _ _ _ E). reflexivity.
  - intros E. rewrite (dict_get_missing _ _ _ E). reflexivity.
  - intros E. rewrite (dict_get_missing _ _ _ E). reflexivity.
  - intros E. rewrite (dict_get_missing _ _ _ E). reflexivity.
  - intros t E. rewrite (dict_get_present _ _ _ _ E). reflexivity.
Qed.

End ExtractProperties.

Lemma ascii_lower_on_plain : lower_on_plain ascii_builtins.
Proof. intros s _. reflexivity. Defined.

Lemma extract_keeps_every_entry_witness :
  state_well_shaped eleven_failures_state = true /\
  exists summary failed_methods,
    extract_attempt_summary (B := ascii_builtins) eleven_failures_state (u "DeepSeek")
    = Ok summary /\
    summary !! "failed_methods"%string = Some (PyList failed_methods) /\
    length failed_methods = 11%nat.
Proof.
  assert (H : state_well_shaped eleven_failures_state = true) by reflexivity.
  split; [exact H|].
  destruct (extract_keeps_every_entry (B := ascii_builtins)
              eleven_failures_state (u "DeepSeek") H)
    as (summary & fm & kf & E & Hfm & _ & _ & _ & L & _).
  exists summary, fm. split; [exact E | split; [exact Hfm|]].
  rewrite L. reflexivity.
Defined.

(** C2, the claim as it is written: a raw result with six discovered facts
    gives, whatever the builtins, a summary with six key findings. *)
Lemma extract_exceeds_bound :
  exists summary,
    (forall B : PyBuiltins,
        extract_attempt_summary (B := B) six_facts_state (u "DeepSeek") = Ok summary) /\
    ~ summary_bounded summary.
Proof.
  eexists. split.
  - intros B. vm_compute. reflexivity.
  - intros (fm & kf & _ & Hkf & _ & L).
    vm_compute in Hkf. injection Hkf as <-. simpl in L. lia.
Qed.

Lemma failed_methods_by_keyword_witness :
  lower_on_plain ascii_builtins /\
  state_well_shaped scenario_state = true /\
  exists summary,
    extract_attempt_summary (B := ascii_builtins) scenario_state (u "DeepSeek")
    = Ok summary /\
    summary !! "failed_methods"%string
    = Some (PyList [PyStr (u "tool call failed: timeout");
                    PyStr (u "错误: invalid input")]).
Proof.
  assert (H : state_well_shaped scenario_state = true) by reflexivity.
  split; [exact ascii_lower_on_plain | split; [exact H|]].
  exact (proj2 (proj2 (proj2 (proj2
    (failed_methods_by_keyword (B := ascii_builtins) scenario_state (u "DeepSeek")
       ascii_lower_on_plain H))))).
Defined.

Lemma attempts_counts_tool_calls_witness :
  state_well_shaped three_messages_state = true /\
  exists summary,
    extract_attempt_summary (B := ascii_builtins) three_messages_state (u "DeepSeek")
    = Ok summary /\
    summary !! "attempts"%string = Some (PyInt 1).
Proof.
  assert (H : state_well_shaped three_messages_state = true) by reflexivity.
  split; [exact H|].
  destruct (attempts_counts_tool_calls (B := ascii_builtins)
              three_messages_state (u "DeepSeek") H) as (summary & E & A & _).
  exists summary. split; [exact E|]. rewrite A. reflexivity.
Defined.

Lemma extract_absent_fields_witness :
  state_well_shaped scenario_state = true /\
  exists summary,
    extract_attempt_summary (B := ascii_builtins) scenario_state (u "DeepSeek")
    = Ok summary /\
    summary !! "attempts"%string = Some (PyInt 0) /\
    summary !! "key_findings"%string = Some (PyList []) /\
    summary !! "timestamp"%string = Some PyNone.
Proof.
  assert (H : state_well_shaped scenario_state = true) by reflexivity.
  split; [exact H|].
  destruct (proj2 (extract_absent_fields (B := ascii_builtins)
                     scenario_state (u "DeepSeek") H))
    as (summary & E & _ & _ & A & K & T & _).
  exists summary. split; [exact E|].
  split; [apply A; reflexivity | split; [apply K; reflexivity | apply T; reflexivity]].
Defined.

(** * Further properties of the code *)

(** ** Outcomes of the constructor and of the model factories *)

Lemma is_ollama_false cfg : llm_backend cfg <> u "ollama" -> is_ollama cfg = false.
Proof. intros H. unfold is_ollama. apply bool_decide_eq_false. exact H. Qed.



(** X1: with a backend other than "ollama" the constructor builds the
    DeepSeek model first and the MiniMax (OpenAI client) advisor second:
    an exception of either client constructor is raised unchanged, the
    main model's first; otherwise the strategy holds the two fresh objects
    and three messages are logged after the earlier ones. *)
Theorem init_api_outcome env cfg w :
  llm_backend cfg <> u "ollama" ->
  init env cfg w =
  match deepseek_ctor env, openai_ctor env with
  | Some e, _ => Raise e
  | None, Some e => Raise e
  | None, None =>
    Ok ({| config := cfg;
           main_llm := length (heap w);
           advisor_llm := S (length (heap w)) |},
        {| heap := heap w ++ [ChatDeepSeek (llm_model_name cfg); ChatOpenAI];
           log := log w ++ [u "✅ 创建 DeepSeek API 模型";
                            u "✅ 创建 MiniMax API 顾问模型";
                            u "[重试策略] 初始化完成"] |})
  end.
Proof.
  intros H. unfold init, create_model, create_advisor_model, _create_api_model.
  rewrite (is_ollama_false _ H).
  unfold construct, mbind, M_bind, mret, M_ret, raise, new_object, log_system_event.
  destruct (deepseek_ctor env); [reflexivity|].
  cbn [heap log]. destruct (openai_ctor env); [reflexivity|].
  cbn [heap log]. rewrite length_app, Nat.add_1_r, <- !app_assoc. reflexivity.
Qed.

Lemma init_api_outcome_witness :
  llm_backend default_config <> u "ollama" /\
  init all_up default_config fresh_world = Ok (default_strategy, constructed_world).
Proof.
  assert (H : llm_backend default_config <> u "ollama") by discriminate.
  split; [exact H|]. rewrite (init_api_outcome all_up default_config fresh_world H).
  reflexivity.
Defined.





(** ** Effects and rhythm of the role decision *)

(** X4: the role decision never raises and never touches the model
    objects; for an even index it leaves the world as it is (nothing is
    logged), for an odd index it logs exactly one message, which names the
    advisor as the acting main agent. This holds for every integer. *)
Theorem get_llm_pair_effect self (i : Z) w :
  exists r w',
    get_llm_pair self i w = Ok (r, w') /\
    heap w' = heap w /\
    (Z.even i = true -> w' = w) /\
    (Z.odd i = true ->
     log w' = log w ++ [u "[重试策略] 🔄 角色互换：" ++ advisor_name self
                        ++ u " 作为主 Agent"]).
Proof.
  destruct (parity_cases i) as [[He Hmod] | [Ho Hmod]].
  - rewrite (get_llm_pair_even _ _ _ Hmod). eexists _, _.
    split; [reflexivity|]. split; [reflexivity|]. split; [reflexivity|].
    rewrite <- Z.negb_even, He. discriminate.
  - rewrite (get_llm_pair_odd _ _ _ Hmod). eexists _, _.
    split; [reflexivity|]. split; [reflexivity|]. split; [|reflexivity].
    rewrite <- Z.negb_odd, Ho. discriminate.
Qed.

Lemma succ_mod_2 (i : Z) :
  (i mod 2 = 0 -> (i + 1) mod 2 = 1) /\ (i mod 2 = 1 -> (i + 1) mod 2 = 0).
Proof.
  pose proof (Z.mod_pos_bound i 2 eq_refl).
  rewrite Z.add_mod by lia. split; intros ->; reflexivity.
Qed.

(** X5: going from one index to the next swaps the two roles, and going
    two indices further gives the same assignment again, for every
    integer index and whatever the worlds of the calls. *)
Theorem get_llm_pair_swaps self (i : Z) w1 w2 w3 :
  exists primary advisor d1 d2 d3 w1' w2' w3',
    get_llm_pair self i w1 = Ok ((primary, advisor, d1), w1') /\
    get_llm_pair self (i + 1) w2 = Ok ((advisor, primary, d2), w2') /\
    get_llm_pair self (i + 2) w3 = Ok ((primary, advisor, d3), w3').
Proof.
  destruct (succ_mod_2 i) as [H01 H10].
  destruct (succ_mod_2 (i + 1)) as [H01' H10'].
  replace (i + 2) with (i + 1 + 1) by lia.
  destruct (parity_cases i) as [[_ Hmod] | [_ Hmod]].
  - rewrite (get_llm_pair_even _ _ _ Hmod), (get_llm_pair_odd _ _ _ (H01 Hmod)),
      (get_llm_pair_even _ _ _ (H10' (H01 Hmod))).
    eexists _, _, _, _, _, _, _, _. repeat split.
  - rewrite (get_llm_pair_odd _ _ _ Hmod), (get_llm_pair_even _ _ _ (H10 Hmod)),
      (get_llm_pair_odd _ _ _ (H01' (H10 Hmod))).
    eexists _, _, _, _, _, _, _, _. repeat split.
Qed.

(** ** Outcomes of the summarizer and of the formatter *)

Section Outcomes.

Context {B : PyBuiltins}.
Local Open Scope string_scope.
Local Open Scope list_scope.

Lemma py_iter_not_sequence v : is_sequence v = false -> py_iter v = Raise TypeError.
Proof. destruct v; simpl; intros H; try discriminate; reflexivity. Qed.

Lemma py_slice_not_sequence n v :
  is_sequence v = false -> py_slice_to n v = Raise TypeError.
Proof. destruct v; simpl; intros H; try discriminate; reflexivity. Qed.

Lemma not_falsy_or_sequence v :
  falsy_or_sequence v = false -> py_truth v = true /\ is_sequence v = false.
Proof.
  unfold falsy_or_sequence. rewrite orb_false_iff, negb_false_iff. tauto.
Qed.

Lemma extract_raises final_state strategy :
  state_well_shaped final_state = false ->
  extract_attempt_summary final_state strategy = Raise TypeError.
Proof.
  unfold state_well_shaped, extract_attempt_summary. intros H.
  destruct (is_sequence (dict_get final_state "action_history" (PyList [])))
    eqn:Ea.
  - rewrite (py_iter_sequence _ Ea). unfold mbind at 1, result_bind at 1.
    destruct (is_sequence (dict_get final_state "messages" (PyList []))) eqn:Em.
    + rewrite (py_iter_sequence _ Em). unfold mbind at 1, result_bind at 1.
      simpl in H. apply not_falsy_or_sequence in H as [T S].
      rewrite T, (py_iter_not_sequence _ S). reflexivity.
    + rewrite (py_iter_not_sequence _ Em). reflexivity.
  - rewrite (py_iter_not_sequence _ Ea). reflexivity.
Qed.

Lemma extract_ok_inv final_state strategy summary :
  extract_attempt_summary final_state strategy = Ok summary ->
  state_well_shaped final_state = true.
Proof.
  intros E. destruct (state_well_shaped final_state) eqn:W; [reflexivity|].
  rewrite (extract_raises _ strategy W) in E. discriminate.
Qed.

(** X6: a present field of the wrong kind makes the summarizer raise:
    when the action log or the messages are [None], a bool, an int or a
    plain object (values that cannot be iterated), it raises [TypeError];
    so it does when the discovered facts are such a value and truthy,
    while falsy discovered facts ([None], [False], [0]) give the same
    result as an absent field. *)
Theorem extract_raises_on_non_iterable final_state strategy (v : pyval) :
  v = PyNone \/ (exists b, v = PyBool b) \/ (exists n, v = PyInt n)
  \/ (exists rendering attrs, v = PyObj rendering attrs) ->
  (final_state !! "action_history" = Some v
   \/ final_state !! "messages" = Some v ->
   extract_attempt_summary final_state strategy = Raise TypeError) /\
  (final_state !! "potential_vulnerabilities" = Some v ->
   (py_truth v = true ->
    extract_attempt_summary final_state strategy = Raise TypeError) /\
   (py_truth v = false ->
    extract_attempt_summary
      (delete "potential_vulnerabilities" final_state) strategy
    = extract_attempt_summary final_state strategy)).
Proof.
  intros Hv.
  assert (S : is_sequence v = false).
  { destruct Hv as [-> | [[b ->] | [[n ->] | (r & a & ->)]]]; reflexivity. }
  split; [|intros Hp; split].
  - intros Hf. apply extract_raises. unfold state_well_shaped.
    destruct Hf as [Hf | Hf]; rewrite (dict_get_present _ _ _ _ Hf), S.
    + reflexivity.
    + rewrite andb_false_r. reflexivity.
  - intros T. apply extract_raises. unfold state_well_shaped.
    rewrite (dict_get_present _ _ _ _ Hp). unfold falsy_or_sequence.
    rewrite T, S. apply andb_false_r.
  - intros T. unfold extract_attempt_summary, dict_get.
    rewrite (lookup_delete_ne final_state _ "action_history") by discriminate.
    rewrite (lookup_delete_ne final_state _ "messages") by discriminate.
    rewrite (lookup_delete_ne final_state _ "start_time") by discriminate.
    rewrite lookup_delete_eq, Hp. cbn [default from_option id].
    rewrite T. reflexivity.
Qed.

Lemma bullet_block_raises header line n seq parts :
  falsy_or_sequence seq = false ->
  bullet_block header line n seq parts = Raise TypeError.
Proof.
  intros H. apply not_falsy_or_sequence in H as [T S].
  unfold bullet_block. rewrite T, (py_slice_not_sequence _ _ S). reflexivity.
Qed.

Lemma format_attempt_raises i attempt parts :
  attempt_renderable attempt = false ->
  format_attempt i attempt parts = Raise TypeError.
Proof.
  unfold attempt_renderable, format_attempt. intros H.
  destruct (falsy_or_sequence (dict_get attempt "failed_methods" (PyList [])))
    eqn:Hf.
  - rewrite (bullet_block_ok _ _ _ _ _ Hf). unfold mbind at 1, result_bind at 1.
    simpl in H. rewrite (bullet_block_raises _ _ _ _ _ H). reflexivity.
  - rewrite (bullet_block_raises _ _ _ _ _ Hf). reflexivity.
Qed.

Lemma format_loop_raises i history parts :
  forallb attempt_renderable history = false ->
  format_loop i history parts = Raise TypeError.
Proof.
  revert i parts. induction history as [|attempt rest IH]; intros i parts H;
    [discriminate|].
  cbn [format_loop]. cbn [forallb] in H.
  destruct (attempt_renderable attempt) eqn:Ha.
  - rewrite (format_attempt_ok _ _ _ Ha). unfold mbind, result_bind.
    apply IH. exact H.
  - rewrite (format_attempt_raises _ _ _ Ha). reflexivity.
Qed.

Lemma format_attempt_history_raises history :
  history <> [] ->
  forallb attempt_renderable history = false ->
  format_attempt_history history = Raise TypeError.
Proof.
  intros Hne H. destruct history as [|a rest]; [congruence|].
  unfold format_attempt_history, format_parts.
  rewrite (format_loop_raises _ _ _ H). reflexivity.
Qed.

Lemma format_ok_inv history text :
  history <> [] ->
  format_attempt_history history = Ok text ->
  forallb attempt_renderable history = true /\
  text = history_header ++ sections_text history ++ closing_note.
Proof.
  intros Hne E. destruct (forallb attempt_renderable history) eqn:H.
  - rewrite (format_attempt_history_ok _ Hne H) in E. injection E as <-.
    split; reflexivity.
  - rewrite (format_attempt_history_raises _ Hne H) in E. discriminate.
Qed.

(** X7: the formatter returns exactly on the empty history and on the
    histories in which every summary's failed methods and key findings are
    absent, falsy or sequences; on every other history it raises
    [TypeError] (a truthy value that cannot be sliced, such as a number or
    [True]). *)
Theorem format_outcome history :
  (history = [] \/ forallb attempt_renderable history = true
   <-> exists text, format_attempt_history history = Ok text) /\
  (history <> [] /\ forallb attempt_renderable history = false
   <-> format_attempt_history history = Raise TypeError).
Proof.
  split; split.
  - intros [-> | H]; [eexists; reflexivity|].
    destruct history as [|a rest]; [eexists; reflexivity|].
    eexists. apply format_attempt_history_ok; [discriminate | exact H].
  - intros [text E]. destruct history as [|a rest]; [left; reflexivity|].
    right. assert (Hne : a :: rest <> []) by discriminate.
    apply (format_ok_inv _ _ Hne E).
  - intros [Hne H]. apply (format_attempt_history_raises _ Hne H).
  - intros E. destruct history as [|a rest]; [discriminate|].
    split; [discriminate|].
    destruct (forallb attempt_renderable (a :: rest)) eqn:H; [|reflexivity].
    assert (Hne : a :: rest <> []) by discriminate.
    rewrite (format_attempt_history_ok _ Hne H) in E. discriminate.
Qed.

(** X8: the formatter returns the empty string only for the empty
    history: every block it returns for a non-empty history starts with
    the heading. *)
Theorem format_empty_iff history :
  format_attempt_history history = Ok [] <-> history = [].
Proof.
  split; [|intros ->; reflexivity].
  intros E. destruct history as [|a rest]; [reflexivity|].
  assert (Hne : a :: rest <> []) by discriminate.
  apply (format_ok_inv _ _ Hne) in E as [_ E].
  apply (f_equal (@length N)) in E. rewrite length_app in E.
  assert (0 < length history_header)%nat by (vm_compute; lia).
  simpl in E. lia.
Qed.

Lemma summary_renderable strategy attempts failed findings timestamp :
  attempt_renderable (summary_dict strategy attempts failed findings timestamp)
  = true.
Proof.
  unfold attempt_renderable.
  change (dict_get (summary_dict strategy attempts failed findings timestamp)
                   "failed_methods" (PyList [])) with (PyList failed).
  change (dict_get (summary_dict strategy attempts failed findings timestamp)
                   "key_findings" (PyList [])) with (PyList findings).
  unfold falsy_or_sequence. cbn [is_sequence]. rewrite !orb_true_r. reflexivity.
Qed.

Lemma extract_summary_eq final_state strategy summary :
  extract_attempt_summary final_state strategy = Ok summary ->
  summary
  = summary_dict strategy
      (Z.of_nat (length (List.filter has_tool_calls (message_sequence final_state))))
      (rendered (List.filter is_failure (action_log final_state)))
      (rendered (discovered_facts final_state))
      (dict_get final_state "start_time" PyNone).
Proof.
  intros E. pose proof (extract_ok_inv _ _ _ E) as W.
  rewrite (extract_ok _ strategy W) in E. injection E as <-. reflexivity.
Qed.

Lemma summaries_renderable history :
  Forall (fun summary =>
            exists final_state strategy,
              extract_attempt_summary final_state strategy = Ok summary) history ->
  forallb attempt_renderable history = true.
Proof.
  induction 1 as [|summary rest [fs [st E]] _ IH]; [reflexivity|].
  cbn [forallb]. rewrite IH, (extract_summary_eq _ _ _ E), summary_renderable.
  reflexivity.
Qed.

(** X9: the formatter never raises on a history made of summaries that
    the summarizer returned: it returns the heading, their sections and
    the closing note. *)
Theorem summaries_always_render history :
  Forall (fun summary =>
            exists final_state strategy,
              extract_attempt_summary final_state strategy = Ok summary) history ->
  history <> [] ->
  format_attempt_history history
  = Ok (history_header ++ sections_text history ++ closing_note).
Proof.
  intros H Hne. apply (format_attempt_history_ok _ Hne), summaries_renderable, H.
Qed.

End Outcomes.

Lemma extract_raises_on_non_iterable_witness :
  (PyNone = PyNone \/ (exists b, PyNone = PyBool b) \/ (exists n, PyNone = PyInt n)
   \/ (exists rendering attrs, PyNone = PyObj rendering attrs)) /\
  extract_attempt_summary (B := ascii_builtins)
    (<["action_history"%string := PyNone]> ∅) (u "DeepSeek") = Raise TypeError.
Proof.
  assert (H : PyNone = PyNone \/ (exists b, PyNone = PyBool b)
              \/ (exists n, PyNone = PyInt n)
              \/ (exists rendering attrs, PyNone = PyObj rendering attrs))
    by (left; reflexivity).
  split; [exact H|].
  apply (proj1 (extract_raises_on_non_iterable (B := ascii_builtins)
                  (<["action_history"%string := PyNone]> ∅) (u "DeepSeek")
                  PyNone H)).
  left. reflexivity.
Defined.

Lemma summaries_always_render_witness :
  exists summary,
    extract_attempt_summary (B := ascii_builtins) scenario_state (u "DeepSeek")
    = Ok summary /\
    [summary] <> [] /\
    format_attempt_history (B := ascii_builtins) [summary]
    = Ok (history_header ++ sections_text (B := ascii_builtins) [summary]
          ++ closing_note).
Proof.
  assert (E : exists summary,
             extract_attempt_summary (B := ascii_builtins) scenario_state
               (u "DeepSeek") = Ok summary)
    by (eexists; apply extract_ok; reflexivity).
  destruct E as [summary E]. exists summary.
  assert (Hne : [summary] <> []) by discriminate.
  split; [exact E | split; [exact Hne|]].
  apply (summaries_always_render (B := ascii_builtins) [summary]); [|exact Hne].
  constructor; [|constructor]. exists scenario_state, (u "DeepSeek"). exact E.
Defined.

(** ** From the summary to its section *)

Section Pipeline.

Context {B : PyBuiltins}.
Local Open Scope string_scope.
Local Open Scope list_scope.

Lemma is_failure_rendered action :
  is_failure (PyStr (py_str action)) = is_failure action.
Proof. reflexivity. Qed.

Lemma filter_rendered_failures actions :
  List.filter is_failure (rendered (List.filter is_failure actions))
  = rendered (List.filter is_failure actions).
Proof.
  induction actions as [|a actions IH]; [reflexivity|].
  cbn [List.filter]. destruct (is_failure a) eqn:F; [|exact IH].
  cbn [rendered map List.filter]. rewrite is_failure_rendered, F.
  f_equal. exact IH.
Qed.

Lemma rendered_rendered xs : rendered (rendered xs) = rendered xs.
Proof. unfold rendered. rewrite map_map. reflexivity. Qed.

Lemma rendered_sublist actions :
  rendered (List.filter is_failure actions) `sublist_of` rendered actions.
Proof.
  induction actions as [|a actions IH]; [constructor|].
  cbn [List.filter rendered map]. destruct (is_failure a).
  - apply sublist_skip, IH.
  - apply sublist_cons, IH.
Qed.

Lemma block_of_rendered header line n (xs : list pyval) :
  block header line n (PyList (rendered xs))
  = match xs with
    | [] => []
    | _ :: _ => header :: map (fun x => line (PyStr (py_str x))) (take n xs)
    end.
Proof.
  destruct xs as [|a l]; [reflexivity|].
  unfold block, shown_bullets, rendered. cbn [py_truth seq_items].
  rewrite length_map. cbn [length Nat.eqb negb].
  rewrite firstn_map, map_map. reflexivity.
Qed.

(** The section of a returned summary, by the raw result it was made
    from. *)
Lemma section_of_summary final_state strategy summary (i : Z) :
  extract_attempt_summary final_state strategy = Ok summary ->
  section i summary
  = [u "### 尝试 " ++ str_of_int i ++ u "：" ++ strategy ++ nl;
     u "- **尝试次数**: "
     ++ str_of_int (Z.of_nat (length (List.filter has_tool_calls
                                        (message_sequence final_state))))
     ++ nl]
    ++ match List.filter is_failure (action_log final_state) with
       | [] => []
       | failed =>
         (u "- **已失败的方法**:" ++ nl)
         :: map (fun action => u "  - ❌ " ++ py_str action ++ nl) (take 10 failed)
       end
    ++ match discovered_facts final_state with
       | [] => []
       | facts =>
         (u "- **关键发现**:" ++ nl)
         :: map (fun fact => u "  - 💡 " ++ py_str fact ++ nl) (take 5 facts)
       end
    ++ [nl].
Proof.
  intros E. rewrite (extract_summary_eq _ _ _ E). unfold section.
  match goal with
  | |- context [summary_dict ?s ?n ?f ?k ?t] =>
    change (dict_get (summary_dict s n f k t) "strategy" (PyStr (u "未知策略")))
      with (PyStr s);
    change (dict_get (summary_dict s n f k t) "attempts" (PyInt 0))
      with (PyInt n);
    change (dict_get (summary_dict s n f k t) "failed_methods" (PyList []))
      with (PyList f);
    change (dict_get (summary_dict s n f k t) "key_findings" (PyList []))
      with (PyList k)
  end.
  rewrite !block_of_rendered.
  destruct (List.filter is_failure (action_log final_state)),
    (discovered_facts final_state); reflexivity.
Qed.

(** X10: what the formatter appends for a summary returned by the
    summarizer, as attempt number [i]: the strategy label as it was given,
    the number of messages with tool calls in decimal, then at most the
    first 10 failed actions of the action log and at most the first 5
    discovered facts of the raw result, each by its string rendering and
    in their order, a list without entries being left out with its header;
    and the block for the history of this one summary is the heading,
    these parts for [i = 1] and the closing note. *)
Theorem summary_rendering final_state strategy summary (i : Z)
        (formatted_parts : list pystr) :
  extract_attempt_summary final_state strategy = Ok summary ->
  let rendering := fun i : Z =>
    [u "### 尝试 " ++ str_of_int i ++ u "：" ++ strategy ++ nl;
     u "- **尝试次数**: "
     ++ str_of_int (Z.of_nat (length (List.filter has_tool_calls
                                        (message_sequence final_state))))
     ++ nl]
    ++ match List.filter is_failure (action_log final_state) with
       | [] => []
       | failed =>
         (u "- **已失败的方法**:" ++ nl)
         :: map (fun action => u "  - ❌ " ++ py_str action ++ nl) (take 10 failed)
       end
    ++ match discovered_facts final_state with
       | [] => []
       | facts =>
         (u "- **关键发现**:" ++ nl)
         :: map (fun fact => u "  - 💡 " ++ py_str fact ++ nl) (take 5 facts)
       end
    ++ [nl] in
  format_attempt i summary formatted_parts = Ok (formatted_parts ++ rendering i) /\
  format_attempt_history [summary]
  = Ok (history_header ++ concat (rendering 1) ++ closing_note).
Proof.
  intros E. cbv zeta beta.
  assert (R : attempt_renderable summary = true).
  { rewrite (extract_summary_eq _ _ _ E). apply summary_renderable. }
  rewrite <- !(section_of_summary _ _ _ _ E). split.
  - apply (format_attempt_ok _ _ _ R).
  - rewrite format_attempt_history_ok; [|discriminate|].
    + unfold sections_text. cbn [sections_from concat].
      rewrite app_nil_r. reflexivity.
    + cbn [forallb]. rewrite R. reflexivity.
Qed.

(** X11: summarizing is idempotent on the failed methods: when the failed
    methods of a summary are given as the action log of another raw
    result, the summary of that one has the same failed methods. *)
Theorem failed_methods_idempotent
        final_state strategy summary failed final_state' strategy' summary' :
  extract_attempt_summary final_state strategy = Ok summary ->
  summary !! "failed_methods" = Some failed ->
  final_state' !! "action_history" = Some failed ->
  extract_attempt_summary final_state' strategy' = Ok summary' ->
  summary' !! "failed_methods" = Some failed.
Proof.
  intros E Hf Ha E'.
  rewrite (extract_summary_eq _ _ _ E) in Hf.
  change (Some (PyList (rendered (List.filter is_failure (action_log final_state))))
          = Some failed) in Hf.
  injection Hf as <-.
  rewrite (extract_summary_eq _ _ _ E').
  change (Some (PyList (rendered (List.filter is_failure (action_log final_state'))))
          = Some (PyList (rendered (List.filter is_failure (action_log final_state))))).
  unfold action_log at 1. rewrite (dict_get_present _ _ _ _ Ha). cbn [seq_items].
  rewrite filter_rendered_failures, rendered_rendered. reflexivity.
Qed.

(** X12: what every returned summary satisfies: it has exactly the five
    keys; its attempt count lies between 0 and the number of messages; its
    failed methods are a subsequence of the string renderings of the
    action log (nothing added, nothing reordered); its key findings are as
    many as the discovered facts; and all its failed methods and key
    findings are strings. *)
Theorem summary_invariants final_state strategy summary :
  extract_attempt_summary final_state strategy = Ok summary ->
  dom summary = ({["strategy"; "attempts"; "failed_methods"; "key_findings";
                   "timestamp"]} : gset string) /\
  exists attempts failed findings,
    summary !! "attempts" = Some (PyInt attempts) /\
    0 <= attempts <= Z.of_nat (length (message_sequence final_state)) /\
    summary !! "failed_methods" = Some (PyList failed) /\
    failed `sublist_of` map (fun action => PyStr (py_str action))
                            (action_log final_state) /\
    summary !! "key_findings" = Some (PyList findings) /\
    length findings = length (discovered_facts final_state) /\
    Forall (fun v => exists s, v = PyStr s) (failed ++ findings).
Proof.
  intros E. rewrite (extract_summary_eq _ _ _ E). split.
  - unfold summary_dict. rewrite !dom_insert_L, dom_empty_L. set_solver.
  - eexists _, _, _. split; [reflexivity|]. split.
    + split; [lia|]. apply inj_le, List.filter_length_le.
    + split; [reflexivity|]. split; [apply rendered_sublist|].
      split; [reflexivity|]. split; [apply length_map|].
      apply Forall_app. unfold rendered.
      split; apply Forall_map, Forall_forall; intros x _; eauto.
Qed.

Lemma sections_from_app i h1 h2 :
  sections_from i (h1 ++ h2)
  = sections_from i h1 ++ sections_from (i + Z.of_nat (length h1)) h2.
Proof.
  revert i. induction h1 as [|a h1 IH]; intros i.
  - cbn [app sections_from length]. rewrite Z.add_0_r. reflexivity.
  - cbn [app sections_from length]. rewrite IH. do 3 f_equal. lia.
Qed.

Lemma sections_text_snoc history attempt :
  sections_text (history ++ [attempt])
  = sections_text history
    ++ concat (section (1 + Z.of_nat (length history)) attempt).
Proof.
  unfold sections_text. rewrite sections_from_app. cbn [sections_from].
  rewrite !concat_app. cbn [concat]. rewrite !app_nil_r. reflexivity.
Qed.

(** X13: appending a summary to a history changes the block only between
    the earlier sections and the closing note: the heading and the
    sections of the earlier attempts stay as they were, and the section of
    the new attempt, numbered one more than the length of the history,
    comes just before the closing note. *)
Theorem format_after_append history attempt :
  forallb attempt_renderable (history ++ [attempt]) = true ->
  (history <> [] ->
   format_attempt_history history
   = Ok (history_header ++ sections_text history ++ closing_note)) /\
  format_attempt_history (history ++ [attempt])
  = Ok (history_header ++ sections_text history
        ++ concat (section (1 + Z.of_nat (length history)) attempt)
        ++ closing_note).
Proof.
  intros H. split.
  - intros Hne. apply (format_attempt_history_ok _ Hne).
    rewrite forallb_app in H. apply andb_true_iff in H as [H _]. exact H.
  - rewrite format_attempt_history_ok; [| |exact H].
    + rewrite sections_text_snoc, <- !app_assoc. reflexivity.
    + destruct history; discriminate.
Qed.

(** X14: the classification of an action as failed does not depend on the
    case of ASCII letters: two texts of ASCII characters and CJK
    ideographs that are equal up to the case of their ASCII letters are
    classified alike. *)
Theorem is_failure_case_insensitive (s t : pystr) :
  lower_on_plain B ->
  forallb plain_cp s = true ->
  forallb plain_cp t = true ->
  map ascii_lower_cp s = map ascii_lower_cp t ->
  is_failure (PyStr s) = is_failure (PyStr t).
Proof.
  intros Hlower Hs Ht E.
  rewrite (is_failure_plain _ Hlower Hs), (is_failure_plain _ Hlower Ht), E.
  reflexivity.
Qed.

(** X15: the summarizer reads four keys of the raw result and no other:
    setting any other key to any value leaves its result as it is. *)
Theorem extract_reads_four_keys final_state strategy (key : string) (v : pyval) :
  key <> "action_history" -> key <> "messages" ->
  key <> "potential_vulnerabilities" -> key <> "start_time" ->
  extract_attempt_summary (<[key := v]> final_state) strategy
  = extract_attempt_summary final_state strategy.
Proof.
  intros H1 H2 H3 H4. unfold extract_attempt_summary, dict_get.
  rewrite !lookup_insert_ne by assumption. reflexivity.
Qed.

Lemma format_attempt_delete i attempt parts (key : string) :
  key <> "strategy" -> key <> "attempts" ->
  key <> "failed_methods" -> key <> "key_findings" ->
  format_attempt i (delete key attempt) parts = format_attempt i attempt parts.
Proof.
  intros H1 H2 H3 H4. unfold format_attempt, dict_get.
  rewrite !lookup_delete_ne by assumption. reflexivity.
Qed.

Lemma format_loop_delete i history parts (key : string) :
  key <> "strategy" -> key <> "attempts" ->
  key <> "failed_methods" -> key <> "key_findings" ->
  format_loop i (map (delete key) history) parts = format_loop i history parts.
Proof.
  intros H1 H2 H3 H4. revert i parts.
  induction history as [|a rest IH]; intros i parts; [reflexivity|].
  cbn [map format_loop]. rewrite (format_attempt_delete _ _ _ _ H1 H2 H3 H4).
  destruct (format_attempt i a parts) as [parts'|e]; [|reflexivity].
  apply IH.
Qed.

(** X16: the formatter reads four keys of each summary and no other: the
    block is the same when any other key, such as the timestamp, is
    removed from every summary; the timestamp is never rendered. *)
Theorem format_reads_four_keys history (key : string) :
  key <> "strategy" -> key <> "attempts" ->
  key <> "failed_methods" -> key <> "key_findings" ->
  format_attempt_history (map (delete key) history)
  = format_attempt_history history.
Proof.
  intros H1 H2 H3 H4. destruct history as [|a rest]; [reflexivity|].
  unfold format_attempt_history, format_parts. cbn [map].
  rewrite <- (format_loop_delete 1 (a :: rest) [history_header] key H1 H2 H3 H4).
  reflexivity.
Qed.

End Pipeline.

Lemma scenario_summary_eq :
  extract_attempt_summary (B := ascii_builtins) scenario_state (u "DeepSeek")
  = Ok scenario_summary.
Proof. vm_compute. reflexivity. Defined.

Lemma summary_rendering_witness :
  extract_attempt_summary (B := ascii_builtins) scenario_state (u "DeepSeek")
  = Ok scenario_summary /\
  format_attempt_history (B := ascii_builtins) [scenario_summary]
  = Ok (u "## 📜 历史尝试记录（请避免重复这些失败的方法）
### 尝试 1：DeepSeek
- **尝试次数**: 0
- **已失败的方法**:
  - ❌ tool call failed: timeout
  - ❌ 错误: invalid input

**⚠️ 重要提示**: 上述方法均已失败，请尝试完全不同的攻击角度！
").
Proof.
  split; [exact scenario_summary_eq|].
  rewrite (proj2 (summary_rendering (B := ascii_builtins) scenario_state
                    (u "DeepSeek") scenario_summary 1 [] scenario_summary_eq)).
  vm_compute. reflexivity.
Defined.

Lemma failed_methods_idempotent_witness :
  extract_attempt_summary (B := ascii_builtins) scenario_state (u "DeepSeek")
  = Ok scenario_summary /\
  scenario_summary !! "failed_methods"%string
  = Some (PyList [PyStr (u "tool call failed: timeout");
                  PyStr (u "错误: invalid input")]) /\
  scenario_again !! "action_history"%string
  = Some (PyList [PyStr (u "tool call failed: timeout");
                  PyStr (u "错误: invalid input")]) /\
  extract_attempt_summary (B := ascii_builtins) scenario_again (u "MiniMax")
  = Ok (<["strategy"%string := PyStr (u "MiniMax")]> scenario_summary) /\
  (<["strategy"%string := PyStr (u "MiniMax")]> scenario_summary)
    !! "failed_methods"%string
  = Some (PyList [PyStr (u "tool call failed: timeout");
                  PyStr (u "错误: invalid input")]).
Proof.
  assert (H2 : scenario_summary !! "failed_methods"%string
               = Some (PyList [PyStr (u "tool call failed: timeout");
                               PyStr (u "错误: invalid input")]))
    by reflexivity.
  assert (H3 : scenario_again !! "action_history"%string
               = Some (PyList [PyStr (u "tool call failed: timeout");
                               PyStr (u "错误: invalid input")]))
    by reflexivity.
  assert (H4 : extract_attempt_summary (B := ascii_builtins) scenario_again
                 (u "MiniMax")
               = Ok (<["strategy"%string := PyStr (u "MiniMax")]> scenario_summary))
    by (vm_compute; reflexivity).
  split; [exact scenario_summary_eq|]. split; [exact H2|]. split; [exact H3|].
  split; [exact H4|].
  exact (failed_methods_idempotent (B := ascii_builtins) _ _ _ _ _ _ _
           scenario_summary_eq H2 H3 H4).
Defined.

Lemma summary_invariants_witness :
  extract_attempt_summary (B := ascii_builtins) scenario_state (u "DeepSeek")
  = Ok scenario_summary /\
  dom scenario_summary
  = ({["strategy"; "attempts"; "failed_methods"; "key_findings"; "timestamp"]}
     : gset string)%string.
Proof.
  split; [exact scenario_summary_eq|].
  exact (proj1 (summary_invariants (B := ascii_builtins) _ _ _ scenario_summary_eq)).
Defined.

Lemma format_after_append_witness :
  forallb attempt_renderable ([twelve_failed] ++ [∅]) = true /\
  format_attempt_history (B := ascii_builtins) ([twelve_failed] ++ [∅])
  = Ok (history_header ++ sections_text (B := ascii_builtins) [twelve_failed]
        ++ concat (section (B := ascii_builtins) 2 ∅) ++ closing_note).
Proof.
  assert (H : forallb attempt_renderable ([twelve_failed] ++ [∅]) = true)
    by reflexivity.
  split; [exact H|].
  exact (proj2 (format_after_append (B := ascii_builtins) [twelve_failed] ∅ H)).
Defined.

Lemma is_failure_case_insensitive_witness :
  lower_on_plain ascii_builtins /\
  forallb plain_cp (u "Login FAILED") = true /\
  forallb plain_cp (u "login failed") = true /\
  map ascii_lower_cp (u "Login FAILED") = map ascii_lower_cp (u "login failed") /\
  is_failure (B := ascii_builtins) (PyStr (u "Login FAILED"))
  = is_failure (B := ascii_builtins) (PyStr (u "login failed")).
Proof.
  assert (H1 : forallb plain_cp (u "Login FAILED") = true) by reflexivity.
  assert (H2 : forallb plain_cp (u "login failed") = true) by reflexivity.
  assert (H3 : map ascii_lower_cp (u "Login FAILED")
               = map ascii_lower_cp (u "login failed")) by reflexivity.
  split; [exact ascii_lower_on_plain|].
  split; [exact H1 | split; [exact H2 | split; [exact H3|]]].
  exact (is_failure_case_insensitive (B := ascii_builtins) _ _
           ascii_lower_on_plain H1 H2 H3).
Defined.

Lemma extract_reads_four_keys_witness :
  "flag"%string <> "action_history"%string /\
  extract_attempt_summary (B := ascii_builtins)
    (<["flag"%string := PyStr (u "x")]> scenario_state) (u "DeepSeek")
  = extract_attempt_summary (B := ascii_builtins) scenario_state (u "DeepSeek").
Proof.
  assert (H1 : "flag"%string <> "action_history"%string) by discriminate.
  split; [exact H1|].
  apply (extract_reads_four_keys (B := ascii_builtins)); [exact H1| | |];
    discriminate.
Defined.

Lemma format_reads_four_keys_witness :
  "timestamp"%string <> "strategy"%string /\
  format_attempt_history (B := ascii_builtins)
    (map (delete "timestamp"%string) [scenario_summary])
  = format_attempt_history (B := ascii_builtins) [scenario_summary].
Proof.
  assert (H1 : "timestamp"%string <> "strategy"%string) by discriminate.
  split; [exact H1|].
  apply (format_reads_four_keys (B := ascii_builtins)); [exact H1| | |];
    discriminate.
Defined.

(** ** Loading the configuration *)

Section LoaderProperties.

Context {B : PyBuiltins} {P : PyParsers}.
Local Open Scope string_scope.
Local Open Scope list_scope.

Lemma api_settings_inv environ backend key url model :
  Config.api_settings environ backend = Ok (key, url, model) ->
  (backend = u "api" /\
   key = getenv_or_else (Config.getenv environ "DEEPSEEK_API_KEY")
                        (Config.getenv environ "OPENAI_API_KEY") /\
   unset_or_empty key = false /\
   url = Some (Config.getenv_default environ "DEEPSEEK_BASE_URL"
                 (u "https://api.lkeap.cloud.tencent.com/v1")) /\
   model = Config.getenv_default environ "LLM_MODEL_NAME"
             (u "deepseek-v3.1-terminus")) \/
  (backend <> u "api" /\ key = None /\ url = None /\
   model = u "deepseek-v3.1-terminus").
Proof.
  unfold Config.api_settings. case_bool_decide as Hb.
  - destruct (unset_or_empty _) eqn:Hk; [discriminate|].
    intros E. injection E as <- <- <-. left. repeat split; assumption.
  - intros E. injection E as <- <- <-. right. repeat split; assumption.
Qed.

Lemma api_settings_raises environ backend e :
  Config.api_settings environ backend = Raise e -> e = ValueError.
Proof.
  unfold Config.api_settings. case_bool_decide; [|discriminate].
  destruct (unset_or_empty _); [|discriminate]. congruence.
Qed.

Lemma parsed_raises {A} (o : option A) e : parsed o = Raise e -> e = ValueError.
Proof. destruct o; [discriminate|]. simpl. congruence. Qed.

(** What a returned configuration was built from. *)
Lemma load_ok_inv environ cfg :
  Config.load_agent_config environ = Ok cfg ->
  let backend :=
    str_lower (Config.getenv_default environ "LLM_BACKEND" (u "api")) in
  let mode :=
    str_lower (Config.getenv_default environ "ENV_MODE" (u "competition")) in
  backend ∈ [u "api"; u "ollama"] /\
  mode ∈ [u "competition"] /\
  Config.llm_backend cfg = backend /\
  Config.env_mode cfg = mode /\
  Config.api_settings environ backend
  = Ok (Config.llm_api_key cfg, Config.llm_base_url cfg, Config.llm_model_name cfg) /\
  py_float (Config.getenv_default environ "OLLAMA_TEMPERATURE" (u "0.5"))
  = Some (Config.ollama_temperature cfg) /\
  py_int (Config.getenv_default environ "OLLAMA_NUM_CTX" (u "8192"))
  = Some (Config.ollama_num_ctx cfg) /\
  py_int (Config.getenv_default environ "OLLAMA_NUM_PREDICT" (u "4096"))
  = Some (Config.ollama_num_predict cfg) /\
  py_int (Config.getenv_default environ "OLLAMA_TIMEOUT" (u "300"))
  = Some (Config.ollama_timeout cfg).
Proof.
  unfold Config.load_agent_config. cbv zeta.
  case_bool_decide as Hb; [|discriminate]. cbn [negb].
  unfold mbind, result_bind.
  destruct (Config.api_settings environ _) as [[[key url] model]|e] eqn:Ea;
    [|discriminate].
  destruct (py_float _) as [t|] eqn:Et; [|discriminate]. cbn [parsed].
  destruct (py_int (Config.getenv_default environ "OLLAMA_NUM_CTX" _))
    as [n1|] eqn:E1; [|discriminate]. cbn [parsed].
  destruct (py_int (Config.getenv_default environ "OLLAMA_NUM_PREDICT" _))
    as [n2|] eqn:E2; [|discriminate]. cbn [parsed].
  destruct (py_int (Config.getenv_default environ "OLLAMA_TIMEOUT" _))
    as [n3|] eqn:E3; [|discriminate]. cbn [parsed].
  case_bool_decide as Hm; [|discriminate]. cbn [negb].
  intros E. injection E as <-.
  repeat match goal with |- _ /\ _ => split end;
    try assumption; reflexivity.
Qed.

Lemma load_raises environ e :
  Config.load_agent_config environ = Raise e -> e = ValueError.
Proof.
  unfold Config.load_agent_config. cbv zeta.
  case_bool_decide; cbn [negb]; [|congruence].
  unfold mbind, result_bind.
  destruct (Config.api_settings environ _) as [[[key url] model]|e'] eqn:Ea.
  2:{ intros E. injection E as <-. apply (api_settings_raises _ _ _ Ea). }
  destruct (py_float _); cbn [parsed]; [|congruence].
  destruct (py_int (Config.getenv_default environ "OLLAMA_NUM_CTX" _));
    cbn [parsed]; [|congruence].
  destruct (py_int (Config.getenv_default environ "OLLAMA_NUM_PREDICT" _));
    cbn [parsed]; [|congruence].
  destruct (py_int (Config.getenv_default environ "OLLAMA_TIMEOUT" _));
    cbn [parsed]; [|congruence].
  case_bool_decide; cbn [negb]; [discriminate | congruence].
Qed.

(** X17: every configuration that the loader returns is validated: its
    backend is the lowercased LLM_BACKEND (default "api") and is "api" or
    "ollama"; its mode is "competition"; with the "api" backend it carries
    a non-empty API key and a base URL; with the "ollama" backend it
    carries no API key and no base URL and the default API model name,
    whatever the API variables hold; and the model factories, which test
    the backend against "ollama" only, take their API branch for the
    backend "api" alone. *)
Theorem load_agent_config_validated environ cfg :
  Config.load_agent_config environ = Ok cfg ->
  Config.llm_backend cfg
  = str_lower (Config.getenv_default environ "LLM_BACKEND" (u "api")) /\
  (Config.llm_backend cfg = u "api" \/ Config.llm_backend cfg = u "ollama") /\
  Config.env_mode cfg = u "competition" /\
  (Config.llm_backend cfg = u "api" ->
   exists key url,
     Config.llm_api_key cfg = Some key /\ key <> [] /\
     Config.llm_base_url cfg = Some url) /\
  (Config.llm_backend cfg = u "ollama" ->
   Config.llm_api_key cfg = None /\ Config.llm_base_url cfg = None /\
   Config.llm_model_name cfg = u "deepseek-v3.1-terminus") /\
  (is_ollama (naming_of cfg) = false -> Config.llm_backend cfg = u "api").
Proof.
  intros E. destruct (load_ok_inv _ _ E) as (Hb & Hm & Eb & Em & Ea & _).
  cbv zeta in *. rewrite <- Eb in Hb, Ea. rewrite <- Em in Hm.
  assert (Hcases : Config.llm_backend cfg = u "api"
                   \/ Config.llm_backend cfg = u "ollama").
  { apply elem_of_cons in Hb as [Hb | Hb]; [left; exact Hb|].
    apply elem_of_cons in Hb as [Hb | Hb]; [right; exact Hb|].
    apply elem_of_nil in Hb. contradiction. }
  split; [exact Eb|]. split; [exact Hcases|]. split.
  { apply elem_of_cons in Hm as [Hm | Hm]; [exact Hm|].
    apply elem_of_nil in Hm. contradiction. }
  apply api_settings_inv in Ea. split; [|split].
  - intros Hapi. destruct Ea as [(_ & Hk & Hne & Hu & _) | (Hn & _)];
      [|contradiction].
    destruct (Config.llm_api_key cfg) as [[|c key]|]; try discriminate.
    eexists _, _. repeat split; [discriminate | exact Hu].
  - intros Ho. destruct Ea as [(Hapi & _) | (_ & Hk & Hu & Hmodel)].
    + rewrite Ho in Hapi. discriminate.
    + repeat split; assumption.
  - intros Hf. destruct Hcases as [Hapi | Ho]; [exact Hapi|].
    unfold is_ollama, naming_of in Hf. cbn in Hf.
    apply bool_decide_eq_false in Hf. contradiction.
Qed.

(** X18: a backend other than "api" and "ollama" (after lowercasing) is
    rejected with [ValueError] before anything else is looked at: the
    other variables cannot make the loader return, nor raise something
    else. *)
Theorem load_agent_config_rejects_backend environ :
  str_lower (Config.getenv_default environ "LLM_BACKEND" (u "api")) <> u "api" ->
  str_lower (Config.getenv_default environ "LLM_BACKEND" (u "api")) <> u "ollama" ->
  Config.load_agent_config environ = Raise ValueError.
Proof.
  intros H1 H2. unfold Config.load_agent_config. cbv zeta.
  case_bool_decide as Hb; [|reflexivity].
  apply elem_of_cons in Hb as [Hb | Hb]; [contradiction|].
  apply elem_of_cons in Hb as [Hb | Hb]; [contradiction|].
  apply elem_of_nil in Hb. contradiction.
Qed.

(** X19: with the "api" backend the API key is DEEPSEEK_API_KEY when that
    is set and non-empty and OPENAI_API_KEY otherwise (an empty
    DEEPSEEK_API_KEY counts as unset); when neither gives a non-empty key
    the loader raises [ValueError]. *)
Theorem load_agent_config_api_key environ :
  str_lower (Config.getenv_default environ "LLM_BACKEND" (u "api")) = u "api" ->
  (unset_or_empty (environ !! "DEEPSEEK_API_KEY") = true ->
   unset_or_empty (environ !! "OPENAI_API_KEY") = true ->
   Config.load_agent_config environ = Raise ValueError) /\
  (forall cfg, Config.load_agent_config environ = Ok cfg ->
     Config.llm_api_key cfg
     = if unset_or_empty (environ !! "DEEPSEEK_API_KEY")
       then environ !! "OPENAI_API_KEY"
       else environ !! "DEEPSEEK_API_KEY").
Proof.
  intros Hapi. split.
  - intros Hd Ho. unfold Config.load_agent_config. cbv zeta. rewrite Hapi.
    case_bool_decide; cbn [negb]; [|reflexivity].
    unfold Config.api_settings, Config.getenv.
    rewrite (bool_decide_eq_true_2 (u "api" = u "api")) by reflexivity.
    destruct (environ !! "DEEPSEEK_API_KEY") as [[|c d]|];
      try discriminate;
      destruct (environ !! "OPENAI_API_KEY") as [[|c' o]|];
      try discriminate; reflexivity.
  - intros cfg E. destruct (load_ok_inv _ _ E) as (_ & _ & _ & _ & Ea & _).
    cbv zeta in Ea. rewrite Hapi in Ea.
    apply api_settings_inv in Ea as [(_ & Hk & _) | (Hn & _)]; [|congruence].
    rewrite Hk. unfold Config.getenv.
    destruct (environ !! "DEEPSEEK_API_KEY") as [[|c d]|]; reflexivity.
Qed.

(** X20: the loader raises nothing but [ValueError]; and the Ollama
    settings are converted for every backend: when OLLAMA_TEMPERATURE is
    not a float or one of OLLAMA_NUM_CTX, OLLAMA_NUM_PREDICT and
    OLLAMA_TIMEOUT is not an int, the loader raises [ValueError] also
    with the "api" backend. *)
Theorem load_agent_config_errors environ :
  (forall e, Config.load_agent_config environ = Raise e -> e = ValueError) /\
  (py_float (Config.getenv_default environ "OLLAMA_TEMPERATURE" (u "0.5")) = None
   \/ py_int (Config.getenv_default environ "OLLAMA_NUM_CTX" (u "8192")) = None
   \/ py_int (Config.getenv_default environ "OLLAMA_NUM_PREDICT" (u "4096")) = None
   \/ py_int (Config.getenv_default environ "OLLAMA_TIMEOUT" (u "300")) = None ->
   Config.load_agent_config environ = Raise ValueError).
Proof.
  split; [apply load_raises|].
  intros H. destruct (Config.load_agent_config environ) as [cfg|e] eqn:E.
  - destruct (load_ok_inv _ _ E) as (_ & _ & _ & _ & _ & Ht & H1 & H2 & H3).
    destruct H as [H | [H | [H | H]]]; congruence.
  - rewrite (load_raises _ _ E). reflexivity.
Qed.

End LoaderProperties.

Lemma load_agent_config_validated_witness :
  exists cfg,
    Config.load_agent_config (B := ascii_builtins) (P := digit_parsers)
      ollama_environ = Ok cfg /\
    Config.llm_backend cfg = u "ollama" /\
    Config.llm_api_key cfg = None /\
    Config.ollama_main_model cfg = u "qwen3:30b" /\
    Config.ollama_num_ctx cfg = 8192.
Proof.
  assert (E : { cfg | Config.load_agent_config (B := ascii_builtins)
                        (P := digit_parsers) ollama_environ = Ok cfg
                      /\ Config.ollama_main_model cfg = u "qwen3:30b"
                      /\ Config.ollama_num_ctx cfg = 8192
                      /\ Config.llm_backend cfg = u "ollama" }).
  { eexists. split; [vm_compute; reflexivity|]. repeat split. }
  destruct E as (cfg & E & Hm & Hn & Hb). exists cfg.
  split; [exact E|]. split; [exact Hb|].
  split; [|split; [exact Hm | exact Hn]].
  destruct (load_agent_config_validated (B := ascii_builtins)
              (P := digit_parsers) ollama_environ cfg E)
    as (_ & _ & _ & _ & Ho & _).
  exact (proj1 (Ho Hb)).
Defined.

Lemma load_agent_config_rejects_backend_witness :
  str_lower (PyBuiltins := ascii_builtins)
    (Config.getenv_default (<["LLM_BACKEND"%string := u "OpenAI"]> api_environ)
                           "LLM_BACKEND" (u "api")) <> u "api" /\
  str_lower (PyBuiltins := ascii_builtins)
    (Config.getenv_default (<["LLM_BACKEND"%string := u "OpenAI"]> api_environ)
                           "LLM_BACKEND" (u "api")) <> u "ollama" /\
  Config.load_agent_config (B := ascii_builtins) (P := digit_parsers)
    (<["LLM_BACKEND"%string := u "OpenAI"]> api_environ) = Raise ValueError.
Proof.
  assert (H1 : str_lower (PyBuiltins := ascii_builtins)
                 (Config.getenv_default
                    (<["LLM_BACKEND"%string := u "OpenAI"]> api_environ)
                    "LLM_BACKEND" (u "api")) <> u "api")
    by (vm_compute; discriminate).
  assert (H2 : str_lower (PyBuiltins := ascii_builtins)
                 (Config.getenv_default
                    (<["LLM_BACKEND"%string := u "OpenAI"]> api_environ)
                    "LLM_BACKEND" (u "api")) <> u "ollama")
    by (vm_compute; discriminate).
  split; [exact H1 | split; [exact H2|]].
  exact (load_agent_config_rejects_backend (B := ascii_builtins)
           (P := digit_parsers) _ H1 H2).
Defined.

Lemma load_agent_config_api_key_witness :
  str_lower (PyBuiltins := ascii_builtins)
    (Config.getenv_default (∅ : gmap string pystr) "LLM_BACKEND" (u "api"))
  = u "api" /\
  Config.load_agent_config (B := ascii_builtins) (P := digit_parsers) ∅
  = Raise ValueError.
Proof.
  assert (H : str_lower (PyBuiltins := ascii_builtins)
                (Config.getenv_default (∅ : gmap string pystr) "LLM_BACKEND"
                                       (u "api"))
              = u "api") by reflexivity.
  split; [exact H|].
  apply (proj1 (load_agent_config_api_key (B := ascii_builtins)
                  (P := digit_parsers) ∅ H)); reflexivity.
Defined.

Lemma load_agent_config_errors_witness :
  py_int (PyParsers := digit_parsers)
    (Config.getenv_default (<["OLLAMA_TIMEOUT"%string := u "5 min"]> api_environ)
                           "OLLAMA_TIMEOUT" (u "300")) = None /\
  Config.load_agent_config (B := ascii_builtins) (P := digit_parsers)
    (<["OLLAMA_TIMEOUT"%string := u "5 min"]> api_environ) = Raise ValueError.
Proof.
  assert (H : py_int (PyParsers := digit_parsers)
                (Config.getenv_default
                   (<["OLLAMA_TIMEOUT"%string := u "5 min"]> api_environ)
                   "OLLAMA_TIMEOUT" (u "300")) = None) by reflexivity.
  split; [exact H|].
  apply (proj2 (load_agent_config_errors (B := ascii_builtins)
                  (P := digit_parsers) _)).
  right. right. right. exact H.
Defined.
